(** * Write-offs vs repayments: the phone-key normaliser and the join

    A shallow embedding of [app.py]: the key normaliser
    [extract_last_nine_digits], the aggregate builder
    [compute_phone_aggregates] and the part of [main] that joins the two
    tables and derives the summary figures.

    Conventions of the embedding.
    - A Python [str] is a list of Unicode code points ([pystr]).
    - A [float] is an IEEE 754 binary64 number: sign, 53-bit significand and
      exponent, with the zeros, the infinities and NaN; sums, products and
      quotients round to nearest, ties to even.
    - A numeric column has one element type for all its cells, as
      [pd.to_numeric] decides it: 64-bit integers, signed or unsigned, whose
      sums wrap around, or binary64 floats.
    - A [DataFrame] is its list of named columns, in column order; every
      cell is a Python object ([pyvalue]).
    - Frames live in a store of objects and variables hold references, so
      that [copy] and in-place assignment can be told apart.
    - The calls to the [st] display layer are recorded in order. *)

From Stdlib Require Import ZArith NArith List Lia String Ascii.
From Stdlib Require Import Floats.SpecFloat.
From stdpp Require Import base option list gmap strings.

Local Open Scope Z_scope.

(** ** Text *)

Abbreviation codepoint := N (only parsing).
Abbreviation pystr := (list N) (only parsing).

(** The code points of an ASCII literal. *)
Fixpoint text (s : string) : pystr :=
  match s with
  | EmptyString => []
  | String a s' => N_of_ascii a :: text s'
  end.

(** First code point of each run of ten consecutive characters of Unicode
    general category Nd (Unicode 15.0): the characters that [\d] matches in
    a [str] pattern, 0-9 among them. *)
Definition decimal_digit_runs : list N :=
  [ 0x30; 0x660; 0x6F0; 0x7C0; 0x966; 0x9E6; 0xA66; 0xAE6; 0xB66; 0xBE6;
    0xC66; 0xCE6; 0xD66; 0xDE6; 0xE50; 0xED0; 0xF20; 0x1040; 0x1090;
    0x17E0; 0x1810; 0x1946; 0x19D0; 0x1A80; 0x1A90; 0x1B50; 0x1BB0;
    0x1C40; 0x1C50; 0xA620; 0xA8D0; 0xA900; 0xA9D0; 0xA9F0; 0xAA50;
    0xABF0; 0xFF10; 0x104A0; 0x10D30; 0x11066; 0x110F0; 0x11136; 0x111D0;
    0x112F0; 0x11450; 0x114D0; 0x11650; 0x116C0; 0x11730; 0x118E0;
    0x11950; 0x11C50; 0x11D50; 0x11DA0; 0x11F50; 0x16A60; 0x16AC0;
    0x16B50; 0x1D7CE; 0x1D7D8; 0x1D7E2; 0x1D7EC; 0x1D7F6; 0x1E140;
    0x1E2F0; 0x1E4F0; 0x1E950; 0x1FBF0 ]%N.

(** [Py_UNICODE_ISDECIMAL]: the test behind [\d] (and, negated, [\D]). *)
Definition Py_UNICODE_ISDECIMAL (c : codepoint) : bool :=
  existsb (fun lo => (lo <=? c)%N && (c <? lo + 10)%N) decimal_digit_runs.

(** The characters 0-9. *)
Definition ascii_digit (c : codepoint) : bool :=
  (48 <=? c)%N && (c <=? 57)%N.

(** [re.sub(r"\D", "", s)]: every character that [\D] matches is replaced
    by nothing. *)
Definition re_sub_nondigits (s : pystr) : pystr :=
  List.filter Py_UNICODE_ISDECIMAL s.

(** [l[i:]] with Python's treatment of a negative or too large start. *)
Definition slice_from {A} (i : Z) (l : list A) : list A :=
  let n := Z.of_nat (length l) in
  let lo := if i <? 0 then Z.max (n + i) 0 else Z.min i n in
  drop (Z.to_nat lo) l.

(** ** Numbers as text *)

Fixpoint uint_text (u : Decimal.uint) : pystr :=
  match u with
  | Decimal.Nil => []
  | Decimal.D0 u => 48%N :: uint_text u
  | Decimal.D1 u => 49%N :: uint_text u
  | Decimal.D2 u => 50%N :: uint_text u
  | Decimal.D3 u => 51%N :: uint_text u
  | Decimal.D4 u => 52%N :: uint_text u
  | Decimal.D5 u => 53%N :: uint_text u
  | Decimal.D6 u => 54%N :: uint_text u
  | Decimal.D7 u => 55%N :: uint_text u
  | Decimal.D8 u => 56%N :: uint_text u
  | Decimal.D9 u => 57%N :: uint_text u
  end.

(** The decimal digits of a natural number, most significant first. *)
Definition decimal_digits (n : N) : pystr := uint_text (N.to_uint n).

(** [str] of an [int]: a minus sign for a negative number, then its decimal
    digits. (The interpreter refuses the conversion, with a ValueError, for
    a number of more than 4300 digits; the statements about [int] values
    keep to numbers below that length.) *)
Definition int_str (z : Z) : pystr :=
  (if z <? 0 then text "-" else []) ++ decimal_digits (Z.abs_N z).


(** ** Floats *)

Abbreviation float := spec_float (only parsing).

Definition float_zero : float := S754_zero false.

(** [x + y], [x * y], [x / y] of binary64. *)
Definition float_add : float -> float -> float := SFadd 53 1024.
Definition float_mul : float -> float -> float := SFmul 53 1024.
Definition float_div : float -> float -> float := SFdiv 53 1024.

(** [x < y]; false when either side is NaN. *)
Definition float_ltb : float -> float -> bool := SFltb.

Definition float_isnan (x : float) : bool :=
  match x with
  | S754_nan => true
  | _ => false
  end.

(** [x == 0.0]: true of both zeros. *)
Definition float_is_zero (x : float) : bool :=
  match x with
  | S754_zero _ => true
  | _ => false
  end.

(** The float nearest to a whole number. *)
Definition float_of_Z (z : Z) : float := binary_normalize 53 1024 z 0 false.

(** The float nearest to [a / b], for positive [a] and [b], with the sign
    given. *)
Definition nearest_float (neg : bool) (a b : Z) : float :=
  let '(m, e, l) := SFdiv_core_binary 53 1024 a 0 b 0 in
  binary_round_aux 53 1024 neg m e l.

(** The float that the decimal numeral [c * 10^k] reads as ([0 <= c]). *)
Definition read_decimal (neg : bool) (c k : Z) : float :=
  if c =? 0 then S754_zero neg
  else nearest_float neg (c * 10 ^ Z.max k 0) (10 ^ Z.max (- k) 0).

Fixpoint strip_trailing_zeros_rev (r : pystr) : pystr :=
  match r with
  | 48%N :: r' => strip_trailing_zeros_rev r'
  | _ => r
  end.

Definition strip_trailing_zeros (s : pystr) : pystr :=
  rev (strip_trailing_zeros_rev (rev s)).


(** The [n]-digit decimals next to [x = a / b] on either side, for [x] with
    its decimal point at [decpt]: the one that reads back as [x], the
    nearer one when both do; with the position of its decimal point. *)
Definition digits_of_length (x : float) (a b decpt : Z) (n : Z) : option (Z * Z) :=
  let p := n - decpt in
  let num := a * 10 ^ Z.max p 0 in
  let den := b * 10 ^ Z.max (- p) 0 in
  let lo := num / den in
  let r := num mod den in
  let hi := lo + 1 in
  let back c := match read_decimal false c (- p), x with
                | S754_finite _ m e, S754_finite _ m' e' => Pos.eqb m m' && (e =? e')
                | _, _ => false
                end in
  let lo_ok := back lo in
  let hi_ok := negb (r =? 0) && back hi in
  let pick c := if c =? 10 ^ n then Some (10 ^ (n - 1), decpt + 1) else Some (c, decpt) in
  if lo_ok && hi_ok then
    match 2 * r ?= den with
    | Lt => pick lo
    | Gt => pick hi
    | Eq => if Z.even lo then pick lo else pick hi
    end
  else if lo_ok then pick lo
  else if hi_ok then pick hi
  else None.

(** The shortest decimal that reads back as [x]: lengths are tried from
    [n] up; 17 digits always suffice for a binary64 number. *)
Fixpoint shortest_digits (x : float) (a b decpt : Z) (n : Z) (fuel : nat) : Z * Z :=
  match fuel with
  | O => (a * 10 ^ Z.max (17 - decpt) 0 / (b * 10 ^ Z.max (decpt - 17) 0), decpt)
  | S fuel' =>
      match digits_of_length x a b decpt n with
      | Some r => r
      | None => shortest_digits x a b decpt (n + 1) fuel'
      end
  end.

(** Digit generation for [repr] of a finite, nonzero float [x]: the digits
    of the shortest decimal that reads back as [x], without trailing zeros,
    and the position [decpt] of the decimal point
    ([|x|] is about [0.d1d2... * 10^decpt]). *)
Definition dtoa (x : float) : pystr * Z :=
  match x with
  | S754_finite _ m e =>
      let a := if 0 <=? e then Z.pos m * 2 ^ e else Z.pos m in
      let b := if 0 <=? e then 1 else 2 ^ (- e) in
      let k0 := Z.of_nat (length (decimal_digits (Z.to_N a)))
                - Z.of_nat (length (decimal_digits (Z.to_N b))) in
      let below := if 0 <=? k0 then a <? b * 10 ^ k0 else a * 10 ^ (- k0) <? b in
      let decpt := if below then k0 else k0 + 1 in
      let '(c, decpt) := shortest_digits x a b decpt 1 17 in
      (strip_trailing_zeros (decimal_digits (Z.to_N c)), decpt)
  | _ => ([], 0)
  end.

Definition zeros (n : Z) : pystr := replicate (Z.to_nat n) 48%N.

(** The exponent field: a sign and at least two digits. *)
Definition exponent_text (e : Z) : pystr :=
  (if e <? 0 then text "-" else text "+")
  ++ (if Z.abs e <? 10 then text "0" else []) ++ decimal_digits (Z.abs_N e).

(** [repr] of a float: positional notation with at least one fractional
    digit when [-4 < decpt <= 16], otherwise the exponent form [d.ddde+XX]. *)
Definition float_repr (x : float) : pystr :=
  match x with
  | S754_nan => text "nan"
  | S754_infinity s => if s then text "-inf" else text "inf"
  | S754_zero s => if s then text "-0.0" else text "0.0"
  | S754_finite s _ _ =>
      let '(ds, decpt) := dtoa x in
      let nd := Z.of_nat (length ds) in
      (if s then text "-" else [])
      ++ (if (decpt <=? -4) || (16 <? decpt) then
            take 1 ds ++ (if 1 <? nd then text "." ++ drop 1 ds else [])
            ++ text "e" ++ exponent_text (decpt - 1)
          else if decpt <=? 0 then
            text "0." ++ zeros (- decpt) ++ ds
          else if nd <=? decpt then
            ds ++ zeros (decpt - nd) ++ text ".0"
          else
            take (Z.to_nat decpt) ds ++ text "." ++ drop (Z.to_nat decpt) ds)
  end.

(** ** Python values *)

Inductive pyvalue :=
| PyNone
| PyNA                       (* pd.NA, pd.NaT *)
| PyStr (s : pystr)
| PyInt (z : Z)
| PyFloat (f : float).

(** [pd.isna] on a scalar. *)
Definition isna (v : pyvalue) : bool :=
  match v with
  | PyNone | PyNA => true
  | PyFloat f => float_isnan f
  | _ => false
  end.

(** [str(value)]. *)
Definition str (v : pyvalue) : pystr :=
  match v with
  | PyNone => text "None"
  | PyNA => text "<NA>"
  | PyStr s => s
  | PyInt z => int_str z
  | PyFloat f => float_repr f
  end.

(** ** The key normaliser (app.py, lines 13-24) *)

Definition extract_last_nine_digits (value : pyvalue) : pystr :=
  if isna value then []
  else
    let digits := re_sub_nondigits (str value) in
    slice_from (-9) digits.

(** ** Tables *)

Abbreviation Series := (list pyvalue) (only parsing).
Abbreviation DataFrame := (list (string * list pyvalue)) (only parsing).

(** [df.columns]. *)
Definition columns (df : DataFrame) : list string := map fst df.

(** [len(df)]: the number of rows. *)
Definition len (df : DataFrame) : nat :=
  match df with
  | [] => 0%nat
  | (_, s) :: _ => length s
  end.

(** Every column has one cell per row. *)
Definition well_formed (df : DataFrame) : bool :=
  forallb (fun c => Nat.eqb (length (snd c)) (len df)) df.

(** [name in df.columns]. *)
Definition contains (name : string) (cols : list string) : bool :=
  existsb (String.eqb name) cols.

(** [list(df.columns).index(name)]; [None] stands for the ValueError. *)
Fixpoint index (name : string) (cols : list string) : option nat :=
  match cols with
  | [] => None
  | c :: cols' =>
      if String.eqb c name then Some 0%nat else S <$> index name cols'
  end.

(** [df[name]]; [None] stands for the KeyError. *)
Fixpoint getitem (name : string) (df : DataFrame) : option Series :=
  match df with
  | [] => None
  | (c, s) :: df' => if String.eqb c name then Some s else getitem name df'
  end.

(** [df[name] = s]: an existing column is replaced where it stands, a new
    one is appended after the last column. *)
Fixpoint setitem (name : string) (s : Series) (df : DataFrame) : DataFrame :=
  match df with
  | [] => [(name, s)]
  | (c, s0) :: df' =>
      if String.eqb c name then (c, s) :: df' else (c, s0) :: setitem name s df'
  end.

(** [df.drop(columns=[name])] for a column that is present. *)
Definition drop_column (name : string) (df : DataFrame) : DataFrame :=
  List.filter (fun c => negb (String.eqb (fst c) name)) df.

(** [series.get(x, default)] on a table indexed by text. *)
Definition series_get {A} (table : gmap (list N) A) (x : pyvalue) (default : A) : A :=
  match x with
  | PyStr k => from_option id default (table !! k)
  | _ => default
  end.

(** [series.value_counts()]: one entry per distinct key, counting its
    occurrences. *)
Definition count_row (m : gmap (list N) nat) (k : pystr) : gmap (list N) nat :=
  <[k := S (from_option id 0%nat (m !! k))]> m.

Definition value_counts (keys : list pystr) : gmap (list N) nat :=
  fold_left count_row keys ∅.


(** ** Numeric columns *)

(** A number as a cell of a numeric column, or a scalar taken from one:
    an integer or a float. *)
Inductive number :=
| NInt (z : Z)
| NFloat (f : float).

(** [float(x)]. *)
Definition to_float (x : number) : float :=
  match x with
  | NInt z => float_of_Z z
  | NFloat f => f
  end.

(** The two integer element types that [pd.to_numeric] produces. *)
Inductive int_dtype :=
| int64
| uint64.

(** The numbers an integer type holds. *)
Definition fits (d : int_dtype) (z : Z) : bool :=
  match d with
  | int64 => (- 2 ^ 63 <=? z) && (z <? 2 ^ 63)
  | uint64 => (0 <=? z) && (z <? 2 ^ 64)
  end.

(** The result of an integer operation, which wraps around silently. *)
Definition wrap (d : int_dtype) (z : Z) : Z :=
  match d with
  | int64 => (z + 2 ^ 63) mod 2 ^ 64 - 2 ^ 63
  | uint64 => z mod 2 ^ 64
  end.

(** A numeric column: all its cells have the one element type. *)
Inductive numeric :=
| IntColumn (d : int_dtype) (values : list Z)
| FloatColumn (values : list float).

(** The length of a numeric column. *)
Definition column_length (column : numeric) : nat :=
  match column with
  | IntColumn _ values => length values
  | FloatColumn values => length values
  end.

(** The integers of the cells, when every cell holds an integer. *)
Fixpoint whole_numbers (cells : list (option number)) : option (list Z) :=
  match cells with
  | [] => Some []
  | Some (NInt z) :: cells' => cons z <$> whole_numbers cells'
  | _ => None
  end.

(** [series.fillna(value)] on a numeric column: only a float column has
    missing cells. *)
Definition fillna (value : float) (column : numeric) : numeric :=
  match column with
  | IntColumn d values => IntColumn d values
  | FloatColumn values =>
      FloatColumn (map (fun f => if float_isnan f then value else f) values)
  end.

Definition Zsum (values : list Z) : Z := fold_right Z.add 0 values.

(** The result of [groupby("k")["v"].sum()]: one entry per distinct key,
    of the element type of the column that was summed. *)
Inductive sum_table :=
| IntSums (d : int_dtype) (sums : gmap (list N) Z)
| FloatSums (sums : gmap (list N) float).

(** Integer columns: each row is added to the running sum of its key. *)
Definition add_int_row (d : int_dtype) (m : gmap (list N) Z) (kv : pystr * Z)
    : gmap (list N) Z :=
  <[kv.1 := wrap d (default 0 (m !! kv.1) + kv.2)]> m.

(** Float columns: the values of each key, in row order. *)
Definition add_group_row (m : gmap (list N) (list float)) (kv : pystr * float)
    : gmap (list N) (list float) :=
  <[kv.1 := default [] (m !! kv.1) ++ [kv.2]]> m.

(** [table.get(x, default)] on a table of sums indexed by text. *)
Definition sum_table_get (table : sum_table) (x : pyvalue) (default : number)
    : number :=
  match x with
  | PyStr k =>
      match table with
      | IntSums _ sums => from_option NInt default (sums !! k)
      | FloatSums sums => from_option NFloat default (sums !! k)
      end
  | _ => default
  end.

(** [table.index] as a set. *)
Definition sum_table_keys (table : sum_table) : gset (list N) :=
  match table with
  | IntSums _ sums => dom sums
  | FloatSums sums => dom sums
  end.

(** ** Effects: the object store, the display calls, exceptions *)

Abbreviation loc := positive (only parsing).

Inductive st_call :=
| st_warning (body : string)
| st_error (body : string)
| st_metric (label : string) (value : number)
| st_dataframe (data : DataFrame)
| st_download_button (data : DataFrame).

Record state := State {
  heap : gmap positive (list (string * list pyvalue));
  screen : list st_call
}.

Inductive exn :=
| KeyError (msg : string)
| ZeroDivisionError.

Inductive outcome (A : Type) :=
| Return (a : A)
| Raise (e : exn).
Arguments Return {A} a.
Arguments Raise {A} e.

Definition M (A : Type) : Type := state -> outcome A * state.

#[export] Instance M_ret : MRet M := fun A a σ => (Return a, σ).

#[export] Instance M_bind : MBind M := fun A B k m σ =>
  match m σ with
  | (Return a, σ') => k a σ'
  | (Raise e, σ') => (Raise e, σ')
  end.

Definition raise {A} (e : exn) : M A := fun σ => (Raise e, σ).

(** [try: m / except Exception as exc: ...]: the exception becomes a value. *)
Definition try {A} (m : M A) : M (A + exn) := fun σ =>
  match m σ with
  | (Return a, σ') => (Return (inl a), σ')
  | (Raise e, σ') => (Return (inr e), σ')
  end.

Definition call (c : st_call) : M unit := fun σ =>
  (Return tt, State (heap σ) (screen σ ++ [c])).

(** The frame a live reference points to. *)
Definition deref (l : loc) : M DataFrame := fun σ =>
  (Return (default [] (heap σ !! l)), σ).

(** In-place update of the frame behind a reference. *)
Definition update (l : loc) (f : DataFrame -> DataFrame) : M unit := fun σ =>
  (Return tt, State (alter f l (heap σ)) (screen σ)).

(** [df.copy()]: a new object with the same contents. *)
Definition copy (l : loc) : M loc := fun σ =>
  let l' := fresh (dom (heap σ)) in
  (Return l', State (<[l' := default [] (heap σ !! l)]> (heap σ)) (screen σ)).

(** [df[name]] through a reference. *)
Definition getitem_ref (l : loc) (name : string) : M Series :=
  df ← deref l;
  match getitem name df with
  | Some s => mret s
  | None => raise (KeyError name)
  end.

(** [a / b] on floats. *)
Definition truediv (a b : float) : M float :=
  if float_is_zero b then raise ZeroDivisionError else mret (float_div a b).

Definition double_quote : string := String "034"%char EmptyString.

(** [str(exc)]: a KeyError prints the [repr] of its message, which for the
    messages of this program (an apostrophe inside, nothing to escape) is
    the message between double quotes. *)
Definition exn_str (e : exn) : string :=
  match e with
  | KeyError msg => (double_quote ++ msg ++ double_quote)%string
  | ZeroDivisionError => "float division by zero"%string
  end.


(** ** The pipeline *)

Section Pipeline.

(** How [pd.to_numeric] reads a text cell: the integer or the float it
    denotes, or [None] where the text is not numeric. The library's reader
    is taken as given; the program is studied for every such reader. *)
Variable parse_number : pystr -> option number.

(** The sum that [groupby(...).sum()] computes for the float values of one
    group, given in row order, and the sum that [series.sum()] computes for
    a float column. Both add binary64 numbers, in an order and with a
    compensation that the library chooses; the program is studied for
    every such summation. *)
Variable float_group_sum : list float -> float.
Variable float_sum : list float -> float.

(** What [pd.to_numeric] makes of one cell; [None] where it finds no
    number. *)
Definition numeric_cell (v : pyvalue) : option number :=
  match v with
  | PyStr s => parse_number s
  | PyInt z => Some (NInt z)
  | PyFloat f => if float_isnan f then None else Some (NFloat f)
  | PyNone | PyNA => None
  end.

(** [pd.to_numeric(series, errors="coerce")]. A column all of whose cells
    are whole numbers is an integer column: [int64] when every number fits
    it, [uint64] when every number fits that. Any other column is a float
    column, with NaN where no number was found. *)
Definition to_numeric (series : Series) : numeric :=
  let cells := map numeric_cell series in
  match whole_numbers cells with
  | Some values =>
      if forallb (fits int64) values then IntColumn int64 values
      else if forallb (fits uint64) values then IntColumn uint64 values
      else FloatColumn (map float_of_Z values)
  | None =>
      FloatColumn (map (fun cell => match cell with
                                    | Some x => to_float x
                                    | None => S754_nan
                                    end) cells)
  end.

(** [groupby("k")["v"].sum()]. *)
Definition groupby_sum (keys : list pystr) (column : numeric) : sum_table :=
  match column with
  | IntColumn d values =>
      IntSums d (fold_left (add_int_row d) (zip keys values) ∅)
  | FloatColumn values =>
      FloatSums (float_group_sum <$> fold_left add_group_row (zip keys values) ∅)
  end.

(** [series.sum()]. *)
Definition series_sum (column : numeric) : number :=
  match column with
  | IntColumn d values => NInt (wrap d (Zsum values))
  | FloatColumn values => NFloat (float_sum values)
  end.

(** The [try] block that looks for a column at its customary position
    (app.py, lines 43-48 and 90-95). *)
Definition check_position (name : string) (expected : nat) (note : string)
    (cols : list string) : M unit :=
  match index name cols with
  | Some col_idx =>
      if negb (Nat.eqb col_idx expected) then call (st_warning note) else mret tt
  | None => mret tt
  end.

(** app.py, lines 35-61. *)
Definition compute_phone_aggregates (repayments : DataFrame)
    : M (gmap (list N) nat * sum_table) :=
  if negb (contains "Phone Number" (columns repayments)) then
    raise (KeyError "Expected 'Phone Number' column (column S) in Repayments.xlsx.")
  else if negb (contains "Total Repaid:" (columns repayments)) then
    raise (KeyError "Expected 'Total Repaid:' column in Repayments.xlsx.")
  else
    check_position "Phone Number" 18
      "'Phone Number' is not at expected column S; proceeding with the named column."
      (columns repayments);;
    match getitem "Phone Number" repayments, getitem "Total Repaid:" repayments with
    | Some phones, Some repaid =>
        let repayments_last9 := map extract_last_nine_digits phones in
        let amounts := fillna float_zero (to_numeric repaid) in
        let counts := value_counts repayments_last9 in
        let sums := groupby_sum repayments_last9 amounts in
        mret (counts, sums)
    | None, _ => raise (KeyError "Phone Number")
    | _, None => raise (KeyError "Total Repaid:")
    end.

(** app.py, line 112. *)
Definition percent_repaid (total_repaid_for_writeoffs total_written_off : float)
    : M float :=
  if float_ltb float_zero total_written_off then
    ratio ← truediv total_repaid_for_writeoffs total_written_off;
    mret (float_mul ratio (float_of_Z 100))
  else mret float_zero.

(** app.py, lines 77-132: [main] from the point where both files have been
    loaded; [repayments_df] and [writeoffs_df] are the two loaded frames. *)
Definition main (repayments_df writeoffs_df : loc) : M unit :=
  repayments ← deref repayments_df;
  aggregates ← try (compute_phone_aggregates repayments);
  match aggregates with
  | inr exc => call (st_error (exn_str exc))
  | inl (phone_last9_counts, phone_last9_amount_sums) =>
    writeoffs ← deref writeoffs_df;
    if negb (contains "mobile" (columns writeoffs)) then
      call (st_error "Expected 'mobile' column (column D) in writeoffs.xlsx.")
    else
      check_position "mobile" 3
        "'mobile' is not at expected column D; proceeding with the named column."
        (columns writeoffs);;
      writeoffs_df ← copy writeoffs_df;
      mobile ← getitem_ref writeoffs_df "mobile";
      update writeoffs_df
        (setitem "last9_mobile"
           (map (fun v => PyStr (extract_last_nine_digits v)) mobile));;
      last9 ← getitem_ref writeoffs_df "last9_mobile";
      update writeoffs_df
        (setitem "Repayment Phone Matches"
           (map (fun x => PyInt (Z.of_nat (series_get phone_last9_counts x 0%nat)))
                last9));;
      last9 ← getitem_ref writeoffs_df "last9_mobile";
      update writeoffs_df
        (setitem "amount repayed"
           (map (fun x => PyFloat (to_float (sum_table_get phone_last9_amount_sums x
                                               (NFloat float_zero))))
                last9));;
      update writeoffs_df (drop_column "last9_mobile");;
      table ← deref writeoffs_df;
      let num_writeoffs := len table in
      derived ← try (getitem_ref writeoffs_df "Total Writtenoff Derived");
      match derived with
      | inr _ =>
          call (st_error "Expected 'Total Writtenoff Derived' column in writeoffs.xlsx.")
      | inl derived =>
          let total_written_off_series := fillna float_zero (to_numeric derived) in
          let total_written_off := to_float (series_sum total_written_off_series) in
          repayed ← getitem_ref writeoffs_df "amount repayed";
          let total_repaid_for_writeoffs :=
            to_float (series_sum (fillna float_zero (to_numeric repayed))) in
          percent ← percent_repaid total_repaid_for_writeoffs total_written_off;
          call (st_metric "Number of write-offs" (NInt (Z.of_nat num_writeoffs)));;
          call (st_metric "Total amount written off" (NFloat total_written_off));;
          call (st_metric "Total repaid write-offs" (NFloat total_repaid_for_writeoffs));;
          call (st_metric "% of repaid write-offs" (NFloat percent));;
          table ← deref writeoffs_df;
          call (st_dataframe table);;
          table ← deref writeoffs_df;
          call (st_download_button table)
      end
  end.

End Pipeline.

(** ** The start of the program *)

(** The two workbooks, by the name of the file ([p.name]); both are looked
    for in the directory of the program. *)
Definition REPAYMENTS_PATH : string := "Repayments.xlsx".
Definition WRITEOFFS_PATH : string := "writeoffs.xlsx".

(** [sep.join(parts)]. *)
Fixpoint join (sep : string) (parts : list string) : string :=
  match parts with
  | [] => EmptyString
  | [p] => p
  | p :: rest => (p ++ sep ++ join sep rest)%string
  end.

(** A new object holding a frame. *)
Definition alloc (df : DataFrame) : M loc := fun σ =>
  let l := fresh (dom (heap σ)) in
  (Return l, State (<[l := df]> (heap σ)) (screen σ)).

Section Start.

Variable parse_number : pystr -> option number.
Variable float_group_sum : list float -> float.
Variable float_sum : list float -> float.

(** The files that are there: [p.exists()]. *)
Variable path_exists : string -> bool.

(** What [pd.read_excel(path, dtype=str)] reads from a file that is there. *)
Variable read_excel : string -> DataFrame.

(** app.py, lines 27-32, without the memoisation of [st.cache_data]. *)
Definition load_data (repayments_path writeoffs_path : string) : M (loc * loc) :=
  repayments ← alloc (read_excel repayments_path);
  writeoffs ← alloc (read_excel writeoffs_path);
  mret (repayments, writeoffs).

(** app.py, lines 69-132: [main] from the look for the two files on. The
    calls before it that set up the page, and the spinner around the
    loading, show nothing of the data and are not recorded. *)
Definition main_from_files : M unit :=
  let missing_files :=
    List.filter (fun p => negb (path_exists p)) [REPAYMENTS_PATH; WRITEOFFS_PATH] in
  match missing_files with
  | _ :: _ =>
      call (st_error ("Missing required file(s): " ++ join ", " missing_files
                      ++ ". Place them next to app.py and reload."))
  | [] =>
      frames ← load_data REPAYMENTS_PATH WRITEOFFS_PATH;
      main parse_number float_group_sum float_sum frames.1 frames.2
  end.

End Start.

(** ** Reading the display *)

(** The value last shown under a metric label. *)
Definition metric (label : string) (calls : list st_call) : option number :=
  last (omap (fun c => match c with
                       | st_metric l v => if String.eqb l label then Some v else None
                       | _ => None
                       end) calls).

(** The tables shown with [st.dataframe]. *)
Definition displayed (calls : list st_call) : list DataFrame :=
  omap (fun c => match c with st_dataframe d => Some d | _ => None end) calls.

(** The bodies of the fatal messages. *)
Definition errors (calls : list st_call) : list string :=
  omap (fun c => match c with st_error m => Some m | _ => None end) calls.

(** The bodies of the warnings. *)
Definition warnings (calls : list st_call) : list string :=
  omap (fun c => match c with st_warning m => Some m | _ => None end) calls.


(** ** A reader for plain decimal literals, and a summation

    Instances of the numeric reader and of the float summations for the
    worked examples. The reader takes an optional sign, digits, and an
    optional fractional part: without a full stop the text is a whole
    number, with one it is the nearest float; anything else is not a
    number. The summation adds from left to right, starting from 0.0. *)

Fixpoint digits_value (acc : N) (s : pystr) : option N :=
  match s with
  | [] => Some acc
  | c :: s' =>
      if ascii_digit c then digits_value (10 * acc + (c - 48))%N s' else None
  end.

(** The text before and after the first full stop. *)
Fixpoint split_point (s : pystr) : pystr * pystr :=
  match s with
  | [] => ([], [])
  | c :: s' =>
      if (c =? 46)%N then ([], s')
      else let '(whole, frac) := split_point s' in (c :: whole, frac)
  end.


Definition parse_decimal (s : pystr) : option number :=
  let '(neg, body) := match s with
                      | 45%N :: s' => (true, s')
                      | 43%N :: s' => (false, s')
                      | _ => (false, s)
                      end in
  if existsb (N.eqb 46) body then
    let '(whole, frac) := split_point body in
    match whole ++ frac with
    | [] => None
    | ds =>
        n ← digits_value 0 ds;
        Some (NFloat (read_decimal neg (Z.of_N n) (- Z.of_nat (length frac))))
    end
  else
    match body with
    | [] => None
    | ds =>
        n ← digits_value 0 ds;
        Some (NInt (if neg then - Z.of_N n else Z.of_N n))
    end.

Definition sum_in_order (values : list float) : float :=
  fold_left float_add values float_zero.


(** * Reference definitions

    What the statements below compare the program with: the normaliser as
    the specification words it, direct scans of the repayment rows, the
    frame and the notes a run produces, and the data of the worked
    examples. *)

(** ** The normaliser as the specification words it *)

(** Following the specification's wording, for a given notion of "digit":
    no data gives the empty string; otherwise every character of the text
    that is not a digit is removed and the last 9 characters of what
    remains are returned, the whole of it when it has fewer than 9. *)
Definition normalize_with (digit : codepoint -> bool) (value : pyvalue) : pystr :=
  if isna value then []
  else
    let digits := List.filter digit (str value) in
    if (length digits <? 9)%nat then digits
    else drop (length digits - 9) digits.

(** The specification's [normalize]: "digit" means one of 0-9. *)
Definition normalize_spec : pyvalue -> pystr := normalize_with ascii_digit.

(** Following the specification's wording: a whole number as it would be
    typed by hand, a plain sequence of decimal digits. *)
Definition typed_by_hand (n : Z) : pystr := decimal_digits (Z.abs_N n).

(** The text has no character that [\d] accepts other than 0-9. *)
Definition only_ascii_digits (s : pystr) : bool :=
  forallb (fun c => implb (Py_UNICODE_ISDECIMAL c) (ascii_digit c)) s.

(** ** Direct scans of the repayment rows *)

(** Direct scan: the number of keys equal to [key]. *)
Definition scan_count (key : pystr) (keys : list pystr) : nat :=
  length (List.filter (fun k => bool_decide (k = key)) keys).

(** [sum(table.values())]. *)
Definition table_total (table : gmap (list N) nat) : nat :=
  map_fold (fun _ c acc => (c + acc)%nat) 0%nat table.


(** Direct scan: the values of the rows whose key is [key], in row order. *)
Definition key_values {A} (key : pystr) (rows : list (list N * A)) : list A :=
  map snd (List.filter (fun kv => bool_decide (kv.1 = key)) rows).

(** [sum(table.values())] of a table of integers, in unbounded
    arithmetic. *)
Definition sum_total (table : gmap (list N) Z) : Z :=
  map_fold (fun _ v acc => v + acc) 0 table.

(** ** The amounts as the specification words them *)

(** Following the specification's wording: the numeric value of an amount
    field; a field that cannot be parsed as a number has none. *)
Definition amount_value (parse_number : pystr -> option number) (v : pyvalue)
    : option number :=
  match v with
  | PyStr s => parse_number s
  | PyInt z => Some (NInt z)
  | PyFloat f => if float_isnan f then None else Some (NFloat f)
  | PyNone | PyNA => None
  end.

(** Following the specification's wording: the amount field coerced to a
    float, 0.0 standing for what is not a number. *)
Definition coerced_amount (parse_number : pystr -> option number) (v : pyvalue)
    : float :=
  let f := match amount_value parse_number v with
           | Some x => to_float x
           | None => S754_nan
           end in
  if float_isnan f then float_zero else f.

(** The amounts of a column in which every field is a whole number and one
    64-bit integer type holds them all, with that type: such a column is
    added up in that type. *)
Definition whole_amounts (parse_number : pystr -> option number) (repaid : Series)
    : option (int_dtype * list Z) :=
  match whole_numbers (map (amount_value parse_number) repaid) with
  | Some values =>
      if forallb (fits int64) values then Some (int64, values)
      else if forallb (fits uint64) values then Some (uint64, values)
      else None
  | None => None
  end.

(** The integer of the given type that is congruent to [z] modulo 2^64:
    what 64-bit arithmetic, two's complement for the signed type, leaves
    of a result [z]. *)
Definition modular (d : int_dtype) (z : Z) : Z :=
  let r := z mod 2 ^ 64 in
  match d with
  | int64 => if r <? 2 ^ 63 then r else r - 2 ^ 64
  | uint64 => r
  end.

(** The amount repaid under a key that some repayment row has: the sum of
    the coerced amounts of the rows with that key, as the arithmetic of the
    column computes it. Whole numbers are added as 64-bit integers and the
    result made a float; floats are added by the library's summation, in
    row order. *)
Definition key_amount (parse_number : pystr -> option number)
    (float_group_sum : list float -> float)
    (key : pystr) (phones repaid : Series) : float :=
  let keys := map extract_last_nine_digits phones in
  match whole_amounts parse_number repaid with
  | Some (d, values) => float_of_Z (modular d (Zsum (key_values key (zip keys values))))
  | None =>
      float_group_sum
        (key_values key (zip keys (map (coerced_amount parse_number) repaid)))
  end.

(** ** What a run produces *)

(** The notes that [check_position] leaves on the screen. *)
Definition position_note (name : string) (expected : nat) (note : string)
    (cols : list string) : list st_call :=
  match index name cols with
  | Some col_idx => if negb (Nat.eqb col_idx expected) then [st_warning note] else []
  | None => []
  end.

Definition phone_note (cols : list string) : list st_call :=
  position_note "Phone Number" 18
    "'Phone Number' is not at expected column S; proceeding with the named column."
    cols.

Definition mobile_note (cols : list string) : list st_call :=
  position_note "mobile" 3
    "'mobile' is not at expected column D; proceeding with the named column."
    cols.

(** The frame that [main] builds from the copy of the write-offs (app.py,
    lines 98-101), given the two aggregate tables. *)
Definition augmented (counts : gmap (list N) nat) (sums : sum_table)
    (mobile : Series) (writeoffs : DataFrame) : DataFrame :=
  let last9 := map (fun v => PyStr (extract_last_nine_digits v)) mobile in
  drop_column "last9_mobile"
    (setitem "amount repayed"
       (map (fun x => PyFloat (to_float (sum_table_get sums x (NFloat float_zero)))) last9)
       (setitem "Repayment Phone Matches"
          (map (fun x => PyInt (Z.of_nat (series_get counts x 0%nat))) last9)
          (setitem "last9_mobile" last9 writeoffs))).

(** ** Data of the worked examples *)

Definition scenario_phones : Series :=
  [PyStr (text "0712345678"); PyStr (text "255712345678")].
Definition scenario_repaid : Series := [PyStr (text "100"); PyStr (text "50")].
Definition scenario_repayments : DataFrame :=
  [("Phone Number"%string, scenario_phones); ("Total Repaid:"%string, scenario_repaid)].

Definition scenario_mobile : Series := [PyStr (text "+255712345678")].
Definition scenario_derived : Series := [PyStr (text "200")].
Definition scenario_writeoffs : DataFrame :=
  [("mobile"%string, scenario_mobile);
   ("Total Writtenoff Derived"%string, scenario_derived)].

(** Two loaded frames, nothing shown yet; 1 refers to the repayments and 2
    to the write-offs. *)
Definition loaded (repayments writeoffs : DataFrame) : state :=
  State (<[1%positive := repayments]> (<[2%positive := writeoffs]> ∅)) [].

Definition scenario_state : state := loaded scenario_repayments scenario_writeoffs.

Definition shared_key_repayments : DataFrame :=
  [("Phone Number"%string, [PyStr (text "0712345678")]);
   ("Total Repaid:"%string, [PyStr (text "100")])].

Definition shared_key_writeoffs : DataFrame :=
  [("mobile"%string, [PyStr (text "0712345678"); PyStr (text "+254 712 345 678")]);
   ("Total Writtenoff Derived"%string, [PyStr (text "60"); PyStr (text "60")])].

(** A write-offs file that already has a column "amount repayed" and a
    column "last9_mobile". *)
Definition clashing_writeoffs : DataFrame :=
  [("mobile"%string, [PyStr (text "0712345678")]);
   ("amount repayed"%string, [PyStr (text "999")]);
   ("last9_mobile"%string, [PyStr (text "n/a")]);
   ("Total Writtenoff Derived"%string, [PyStr (text "60")])].

(** Write-offs whose phone column goes by another name. *)
Definition unnamed_writeoffs : DataFrame :=
  [("phone"%string, scenario_mobile);
   ("Total Writtenoff Derived"%string, scenario_derived)].

(** The rows of the scenario, the other way round. *)
Definition scenario_repayments_reversed : DataFrame :=
  [("Phone Number"%string, rev scenario_phones);
   ("Total Repaid:"%string, rev scenario_repaid)].

(** The columns of the scenario, the other way round. *)
Definition scenario_repayments_swapped : DataFrame :=
  [("Total Repaid:"%string, scenario_repaid); ("Phone Number"%string, scenario_phones)].

(** Write-offs without the column of amounts written off. *)
Definition untotalled_writeoffs : DataFrame :=
  [("mobile"%string, scenario_mobile)].

(** Repayments with the two named columns and no row. *)
Definition empty_repayments : DataFrame :=
  [("Phone Number"%string, []); ("Total Repaid:"%string, [])].

(** Two repayments under one key whose amounts, as whole numbers, add up
    to one more than the largest signed 64-bit integer. *)
Definition overflowing_repayments : DataFrame :=
  [("Phone Number"%string, [PyStr (text "0712345678"); PyStr (text "255712345678")]);
   ("Total Repaid:"%string,
    [PyStr (text "9223372036854775807"); PyStr (text "1")])].

(** Two repayments under one key with amounts written as decimals. *)
Definition decimal_repayments : DataFrame :=
  [("Phone Number"%string, [PyStr (text "0712345678"); PyStr (text "255712345678")]);
   ("Total Repaid:"%string, [PyStr (text "0.1"); PyStr (text "0.2")])].

(** The run of [main] on the two frames loaded by [loaded], with the
    instances above. *)
Abbreviation run_main :=
  (main parse_decimal sum_in_order sum_in_order 1%positive 2%positive) (only parsing).

(** Closed goals about a run are settled by evaluating the program. *)
Ltac evaluated := vm_compute; reflexivity.

(** * Properties of the normaliser *)

Lemma ascii_digit_decimal c : ascii_digit c = true -> Py_UNICODE_ISDECIMAL c = true.
Proof.
  unfold ascii_digit, Py_UNICODE_ISDECIMAL. intros H.
  apply andb_true_iff in H as [H1 H2].
  apply N.leb_le in H1, H2.
  apply existsb_exists. exists 48%N. split; [now left|].
  apply andb_true_iff. split; [apply N.leb_le | apply N.ltb_lt]; lia.
Qed.

Lemma forallb_filter_same {A} (p : A -> bool) l : forallb p (List.filter p l) = true.
Proof.
  induction l as [|x l IH]; simpl; [reflexivity|].
  destruct (p x) eqn:E; simpl; [rewrite E|]; exact IH.
Qed.

Lemma filter_forallb_id {A} (p : A -> bool) l :
  forallb p l = true -> List.filter p l = l.
Proof.
  induction l as [|x l IH]; simpl; [reflexivity|].
  intros H. apply andb_true_iff in H as [Hx Hl]. rewrite Hx, IH; auto.
Qed.

Lemma forallb_drop {A} (p : A -> bool) n l :
  forallb p l = true -> forallb p (drop n l) = true.
Proof.
  revert n. induction l as [|x l IH]; intros [|n] H; simpl in *; auto.
  apply andb_true_iff in H as [_ H]. auto.
Qed.

Lemma slice_last_nine {A} (l : list A) :
  slice_from (-9) l =
  if (length l <? 9)%nat then l else drop (length l - 9) l.
Proof.
  unfold slice_from. change (-9 <? 0) with true. cbv iota zeta.
  destruct (Nat.ltb_spec (length l) 9) as [Hlt|Hge].
  - replace (Z.max (Z.of_nat (length l) + -9) 0) with 0 by lia. reflexivity.
  - f_equal. lia.
Qed.

Lemma slice_last_nine_length {A} (l : list A) :
  (length (slice_from (-9) l) <= 9)%nat.
Proof.
  rewrite slice_last_nine.
  destruct (Nat.ltb_spec (length l) 9); [lia|].
  rewrite length_drop. lia.
Qed.

Lemma forallb_slice {A} (p : A -> bool) i l :
  forallb p l = true -> forallb p (slice_from i l) = true.
Proof. apply forallb_drop. Qed.

Lemma filter_only_ascii s :
  only_ascii_digits s = true ->
  List.filter Py_UNICODE_ISDECIMAL s = List.filter ascii_digit s.
Proof.
  unfold only_ascii_digits.
  induction s as [|c s IH]; simpl; [reflexivity|].
  intros H. apply andb_true_iff in H as [Hc Hs].
  destruct (Py_UNICODE_ISDECIMAL c) eqn:Ed; simpl in Hc.
  - rewrite Hc, IH; auto.
  - destruct (ascii_digit c) eqn:Ea.
    + apply ascii_digit_decimal in Ea. congruence.
    + auto.
Qed.

Lemma extract_as_worded value :
  extract_last_nine_digits value = normalize_with Py_UNICODE_ISDECIMAL value.
Proof.
  unfold extract_last_nine_digits, normalize_with, re_sub_nondigits.
  destruct (isna value); [reflexivity|]. cbv zeta. apply slice_last_nine.
Qed.

Lemma uint_text_digits u : forallb ascii_digit (uint_text u) = true.
Proof. induction u; simpl; auto. Qed.

Lemma decimal_digits_decimal n :
  forallb Py_UNICODE_ISDECIMAL (decimal_digits n) = true.
Proof.
  unfold decimal_digits. generalize (uint_text_digits (N.to_uint n)).
  generalize (uint_text (N.to_uint n)). intros l.
  induction l as [|c l IH]; simpl; [reflexivity|].
  intros H. apply andb_true_iff in H as [Hc Hl].
  rewrite (ascii_digit_decimal _ Hc), IH; auto.
Qed.

Lemma int_str_digits z :
  re_sub_nondigits (int_str z) = decimal_digits (Z.abs_N z).
Proof.
  unfold re_sub_nondigits, int_str.
  rewrite List.filter_app, (filter_forallb_id _ _ (decimal_digits_decimal _)).
  destruct (z <? 0); reflexivity.
Qed.

(** ** C1 *)

(** C1, as stated, fails: text written with Arabic-Indic digits (U+0661,
    U+0662, U+0663) is kept whole, because [\D] removes only what is not a
    Unicode decimal digit; the result is not made of 0-9 and is not what
    the worded definition with 0-9 gives (the empty string). *)
Lemma extract_keeps_other_scripts :
  let value := PyStr [0x661; 0x662; 0x663]%N in
  extract_last_nine_digits value = [0x661; 0x662; 0x663]%N /\
  forallb ascii_digit (extract_last_nine_digits value) = false /\
  extract_last_nine_digits value <> normalize_spec value.
Proof. vm_compute. repeat split; discriminate. Qed.

(** C1 (amended): for every value the result consists of Unicode decimal
    digits only, has at most 9 characters, and is what the worded definition
    gives when "digit" is read as Unicode decimal digit; when the text of
    the value has no decimal digit outside 0-9, it consists of 0-9 only and
    agrees with the specification's [normalize]. The two worked examples
    keep the last nine digits. *)
Theorem extract_last_nine_digits_correct :
  (forall value,
     forallb Py_UNICODE_ISDECIMAL (extract_last_nine_digits value) = true /\
     (length (extract_last_nine_digits value) <= 9)%nat /\
     extract_last_nine_digits value = normalize_with Py_UNICODE_ISDECIMAL value /\
     (only_ascii_digits (str value) = true ->
      forallb ascii_digit (extract_last_nine_digits value) = true /\
      extract_last_nine_digits value = normalize_spec value)) /\
  extract_last_nine_digits (PyStr (text "555-123-4567")) = text "551234567" /\
  extract_last_nine_digits (PyStr (text "+1 555 123 4567")) = text "551234567".
Proof.
  split; [|split; reflexivity].
  intros value. split; [|split; [|split]].
  - unfold extract_last_nine_digits. destruct (isna value); [reflexivity|].
    apply forallb_slice, forallb_filter_same.
  - unfold extract_last_nine_digits. destruct (isna value); [simpl; lia|].
    apply slice_last_nine_length.
  - apply extract_as_worded.
  - intros Hascii.
    assert (E : extract_last_nine_digits value = normalize_spec value).
    { rewrite extract_as_worded. unfold normalize_spec, normalize_with.
      destruct (isna value); [reflexivity|]. now rewrite filter_only_ascii. }
    split; [|exact E].
    rewrite E. unfold normalize_spec, normalize_with.
    destruct (isna value); [reflexivity|]. cbv zeta.
    destruct (_ <? _)%nat; [|apply forallb_drop]; apply forallb_filter_same.
Qed.

Lemma extract_last_nine_digits_correct_witness :
  forallb ascii_digit (extract_last_nine_digits (PyStr (text "0712 345 678")))
    = true /\
  extract_last_nine_digits (PyStr (text "0712 345 678"))
    = normalize_spec (PyStr (text "0712 345 678")).
Proof.
  apply (proj1 extract_last_nine_digits_correct (PyStr (text "0712 345 678"))).
  reflexivity.
Defined.

(** ** C8 *)

(** C8, as stated, fails. A value written in exponential notation is
    neither rejected nor special-cased: the text "1e+16", which is also
    what [str] makes of the float 1e16, gives the key "116", the digits of
    the mantissa and of the exponent run together, instead of the last nine
    digits of 10000000000000000. *)
Lemma extract_text_exponent :
  extract_last_nine_digits (PyStr (text "1e+16")) = text "116" /\
  str (PyFloat (float_of_Z (10 ^ 16))) = text "1e+16" /\
  extract_last_nine_digits (PyFloat (float_of_Z (10 ^ 16))) = text "116" /\
  text "116" <> slice_from (-9) (typed_by_hand (10 ^ 16)).
Proof. vm_compute. repeat split; discriminate. Qed.

Lemma re_sub_nondigits_app s t :
  re_sub_nondigits (s ++ t) = re_sub_nondigits s ++ re_sub_nondigits t.
Proof. apply List.filter_app. Qed.

(** C8 (amended): the text of the value is taken as it is. An integer (of
    at most 4300 digits, beyond which the interpreter refuses to print it)
    is rendered as its plain decimal digits, of which the last nine are
    kept. A numeral written with a decimal point or in exponential notation
    gets no special treatment: the point, the letter e and the sign of the
    exponent are dropped like any other non-digit, and the digits of the
    whole part and of the fraction, or of the mantissa and of the exponent,
    are run together before the last nine are taken. So the float
    712345678.0, printed with its ".0", gives "123456780", and 2^55,
    printed as 3.602879701896397e+16, gives "189639716". *)
Theorem extract_numeric_rendering :
  (forall z,
     (length (decimal_digits (Z.abs_N z)) <= 4300)%nat ->
     str (PyInt z) = (if z <? 0 then text "-" else []) ++ typed_by_hand z /\
     extract_last_nine_digits (PyInt z) = slice_from (-9) (typed_by_hand z)) /\
  (forall whole fraction,
     extract_last_nine_digits (PyStr (whole ++ text "." ++ fraction)) =
     slice_from (-9) (re_sub_nondigits whole ++ re_sub_nondigits fraction)) /\
  (forall mantissa sign exponent,
     Py_UNICODE_ISDECIMAL sign = false ->
     extract_last_nine_digits (PyStr (mantissa ++ text "e" ++ sign :: exponent)) =
     slice_from (-9) (re_sub_nondigits mantissa ++ re_sub_nondigits exponent)) /\
  str (PyFloat (float_of_Z 712345678)) = text "712345678.0" /\
  extract_last_nine_digits (PyFloat (float_of_Z 712345678)) = text "123456780" /\
  str (PyFloat (float_of_Z (2 ^ 55))) = text "3.602879701896397e+16" /\
  extract_last_nine_digits (PyFloat (float_of_Z (2 ^ 55))) = text "189639716".
Proof.
  split; [|split; [|split; [|repeat split; evaluated]]].
  - intros z _. split; [reflexivity|].
    unfold extract_last_nine_digits, typed_by_hand. simpl.
    now rewrite int_str_digits.
  - intros whole fraction. unfold extract_last_nine_digits. simpl.
    now rewrite !re_sub_nondigits_app.
  - intros mantissa sign exponent Hs. unfold extract_last_nine_digits. simpl.
    rewrite !re_sub_nondigits_app. do 2 f_equal.
    unfold re_sub_nondigits. simpl. now rewrite Hs.
Qed.

Lemma extract_numeric_rendering_witness :
  extract_last_nine_digits (PyInt (-255712345678)) = text "712345678" /\
  extract_last_nine_digits (PyStr (text "2.5" ++ text "e" ++ 43%N :: text "20")) =
  text "2520".
Proof.
  split.
  - apply (proj1 extract_numeric_rendering (-255712345678)). vm_compute. lia.
  - apply (proj1 (proj2 (proj2 extract_numeric_rendering)) (text "2.5") 43%N (text "20")).
    reflexivity.
Defined.

(** * Properties of the tables *)

Lemma contains_getitem name (df : DataFrame) :
  contains name (columns df) = true <-> is_Some (getitem name df).
Proof.
  unfold contains, columns.
  induction df as [|[c s] df IH]; simpl.
  - split; [discriminate | intros [? ?]; discriminate].
  - rewrite (String.eqb_sym name c). destruct (String.eqb c name); simpl.
    + split; eauto.
    + exact IH.
Qed.

Lemma contains_false_getitem name (df : DataFrame) :
  contains name (columns df) = false -> getitem name df = None.
Proof.
  intros H. destruct (getitem name df) eqn:E; [|reflexivity].
  assert (Hc : contains name (columns df) = true) by (apply contains_getitem; eauto).
  congruence.
Qed.

Lemma getitem_setitem_eq name s (df : DataFrame) :
  getitem name (setitem name s df) = Some s.
Proof.
  induction df as [|[c s0] df IH]; simpl.
  - now rewrite String.eqb_refl.
  - destruct (String.eqb c name) eqn:E; simpl; rewrite E; auto.
Qed.

Lemma getitem_setitem_ne name name' s (df : DataFrame) :
  String.eqb name' name = false ->
  getitem name (setitem name' s df) = getitem name df.
Proof.
  intros Hne. induction df as [|[c s0] df IH]; simpl.
  - now rewrite Hne.
  - destruct (String.eqb c name') eqn:E; simpl.
    + apply String.eqb_eq in E as ->. now rewrite Hne.
    + now rewrite IH.
Qed.

Lemma getitem_drop_column_ne name name' (df : DataFrame) :
  String.eqb name' name = false ->
  getitem name (drop_column name' df) = getitem name df.
Proof.
  intros Hne. unfold drop_column.
  induction df as [|[c s0] df IH]; simpl; [reflexivity|].
  destruct (String.eqb c name') eqn:E; simpl.
  - apply String.eqb_eq in E as ->. now rewrite Hne.
  - now rewrite IH.
Qed.

Lemma setitem_fresh name s (df : DataFrame) :
  contains name (columns df) = false -> setitem name s df = df ++ [(name, s)].
Proof.
  unfold contains, columns.
  induction df as [|[c s0] df IH]; simpl; [reflexivity|].
  rewrite (String.eqb_sym name c). intros H.
  apply orb_false_iff in H as [-> H]. now rewrite IH.
Qed.

Lemma drop_column_fresh name (df : DataFrame) :
  contains name (columns df) = false -> drop_column name df = df.
Proof.
  unfold contains, columns, drop_column.
  induction df as [|[c s0] df IH]; simpl; [reflexivity|].
  rewrite (String.eqb_sym name c). intros H.
  apply orb_false_iff in H as [-> H]. simpl. now rewrite IH.
Qed.

(** ** The count table *)

Lemma table_total_insert_fresh (m : gmap (list N) nat) k c :
  m !! k = None -> table_total (<[k := c]> m) = (c + table_total m)%nat.
Proof.
  intros H. unfold table_total.
  apply (map_fold_insert_L (fun _ c acc => (c + acc)%nat)); [|exact H].
  intros. lia.
Qed.

Lemma table_total_count_row (m : gmap (list N) nat) k :
  table_total (count_row m k) = S (table_total m).
Proof.
  unfold count_row. destruct (m !! k) as [c|] eqn:E; simpl.
  - rewrite <- (insert_delete_eq m k (S c)).
    rewrite table_total_insert_fresh by apply lookup_delete_eq.
    rewrite <- (insert_delete_id m k c E) at 2.
    rewrite table_total_insert_fresh by apply lookup_delete_eq.
    lia.
  - now rewrite table_total_insert_fresh.
Qed.

Lemma table_total_fold (keys : list (list N)) (m : gmap (list N) nat) :
  table_total (fold_left count_row keys m) = (length keys + table_total m)%nat.
Proof.
  revert m. induction keys as [|k keys IH]; intros m; simpl; [reflexivity|].
  rewrite IH, table_total_count_row. lia.
Qed.

Lemma count_fold_lookup (keys : list (list N)) (m : gmap (list N) nat) key :
  fold_left count_row keys m !! key =
  if decide (scan_count key keys = 0%nat) then m !! key
  else Some (from_option id 0%nat (m !! key) + scan_count key keys)%nat.
Proof.
  unfold scan_count.
  revert m. induction keys as [|k keys IH]; intros m; simpl; [reflexivity|].
  rewrite IH. unfold count_row.
  destruct (decide (k = key)) as [->|Hne].
  - rewrite bool_decide_eq_true_2 by reflexivity. simpl.
    rewrite lookup_insert_eq. simpl.
    destruct (decide _); [f_equal; lia|].
    f_equal. lia.
  - rewrite bool_decide_eq_false_2 by exact Hne.
    now rewrite lookup_insert_ne.
Qed.

Lemma value_counts_lookup (keys : list (list N)) key :
  value_counts keys !! key =
  if decide (scan_count key keys = 0%nat) then None
  else Some (scan_count key keys).
Proof.
  unfold value_counts. rewrite count_fold_lookup, lookup_empty. reflexivity.
Qed.

(** ** The sum table *)

Lemma wrap_add_l d a b : wrap d (wrap d a + b) = wrap d (a + b).
Proof.
  destruct d; unfold wrap.
  - f_equal.
    replace ((a + 2 ^ 63) mod 2 ^ 64 - 2 ^ 63 + b + 2 ^ 63)
      with ((a + 2 ^ 63) mod 2 ^ 64 + b) by lia.
    rewrite Zplus_mod_idemp_l. f_equal. lia.
  - apply Zplus_mod_idemp_l.
Qed.

Lemma wrap_modular d z : wrap d z = modular d z.
Proof.
  unfold wrap, modular. destruct d; [|reflexivity]. cbv zeta.
  pose proof (Z.mod_pos_bound z (2 ^ 64) ltac:(lia)) as Hr.
  rewrite <- Zplus_mod_idemp_l.
  destruct (Z.ltb_spec (z mod 2 ^ 64) (2 ^ 63)) as [Hlt|Hge].
  - rewrite Z.mod_small by lia. lia.
  - replace (z mod 2 ^ 64 + 2 ^ 63)
      with (z mod 2 ^ 64 - 2 ^ 63 + 1 * 2 ^ 64) by lia.
    rewrite Z_mod_plus_full, Z.mod_small by lia. lia.
Qed.

Lemma wrap_fits d z : fits d z = true -> wrap d z = z.
Proof.
  destruct d; unfold fits, wrap; intros H; apply andb_true_iff in H as [H1 H2];
    apply Z.leb_le in H1; apply Z.ltb_lt in H2.
  - rewrite Z.mod_small by lia. lia.
  - apply Z.mod_small. lia.
Qed.

Lemma fits_wrap d z : fits d (wrap d z) = true.
Proof.
  destruct d; unfold fits, wrap; apply andb_true_iff.
  - pose proof (Z.mod_pos_bound (z + 2 ^ 63) (2 ^ 64) ltac:(lia)).
    split; [apply Z.leb_le | apply Z.ltb_lt]; lia.
  - pose proof (Z.mod_pos_bound z (2 ^ 64) ltac:(lia)).
    split; [apply Z.leb_le | apply Z.ltb_lt]; lia.
Qed.

Lemma key_values_absent {A} key (rows : list (list N * A)) :
  scan_count key (map fst rows) = 0%nat -> key_values key rows = [].
Proof.
  unfold scan_count, key_values.
  induction rows as [|[k v] rows IH]; cbn [map fst List.filter]; [reflexivity|].
  destruct (bool_decide (k = key)); [discriminate | exact IH].
Qed.

Lemma key_values_cons {A} key k (v : A) (rows : list (list N * A)) :
  key_values key ((k, v) :: rows) =
  if decide (k = key) then v :: key_values key rows else key_values key rows.
Proof.
  unfold key_values. cbn [List.filter fst].
  destruct (decide (k = key)) as [->|Hne].
  - now rewrite bool_decide_eq_true_2.
  - now rewrite bool_decide_eq_false_2.
Qed.

Lemma scan_count_cons key k (keys : list (list N)) :
  scan_count key (k :: keys) =
  if decide (k = key) then S (scan_count key keys) else scan_count key keys.
Proof.
  unfold scan_count. cbn [List.filter].
  destruct (decide (k = key)) as [->|Hne].
  - now rewrite bool_decide_eq_true_2.
  - now rewrite bool_decide_eq_false_2.
Qed.

Lemma int_fold_lookup (d : int_dtype) (rows : list (list N * Z)) (m : gmap (list N) Z) key :
  fold_left (add_int_row d) rows m !! key =
  if decide (scan_count key (map fst rows) = 0%nat) then m !! key
  else Some (wrap d (default 0 (m !! key) + Zsum (key_values key rows))).
Proof.
  revert m. induction rows as [|[k v] rows IH]; intros m; [reflexivity|].
  cbn [fold_left map fst]. rewrite IH, scan_count_cons, key_values_cons.
  unfold add_int_row. cbn [fst snd].
  destruct (decide (k = key)) as [->|Hne].
  - rewrite lookup_insert_eq. cbn [default from_option id].
    destruct (decide (S _ = 0%nat)) as [?|_]; [discriminate|].
    destruct (decide (scan_count key (map fst rows) = 0%nat)) as [E|E].
    + rewrite (key_values_absent _ _ E). cbn [Zsum fold_right].
      now rewrite Z.add_0_r.
    + rewrite wrap_add_l. cbn [Zsum fold_right]. f_equal. f_equal.
      unfold Zsum. lia.
  - now rewrite lookup_insert_ne.
Qed.

Lemma group_fold_lookup (rows : list (list N * float))
    (m : gmap (list N) (list float)) key :
  fold_left add_group_row rows m !! key =
  if decide (scan_count key (map fst rows) = 0%nat) then m !! key
  else Some (default [] (m !! key) ++ key_values key rows).
Proof.
  revert m. induction rows as [|[k v] rows IH]; intros m; [reflexivity|].
  cbn [fold_left map fst]. rewrite IH, scan_count_cons, key_values_cons.
  unfold add_group_row. cbn [fst snd].
  destruct (decide (k = key)) as [->|Hne].
  - rewrite lookup_insert_eq. cbn [default from_option id].
    destruct (decide (S _ = 0%nat)) as [?|_]; [discriminate|].
    destruct (decide (scan_count key (map fst rows) = 0%nat)) as [E|E].
    + now rewrite (key_values_absent _ _ E).
    + now rewrite <- app_assoc.
  - now rewrite lookup_insert_ne.
Qed.

Lemma zip_keys {A} (keys : list (list N)) (vals : list A) :
  length keys = length vals -> map fst (zip keys vals) = keys.
Proof.
  revert vals. induction keys as [|k keys IH]; intros [|v vals] H; simpl in *;
    try discriminate; [reflexivity|].
  f_equal. apply IH. lia.
Qed.

Lemma well_formed_getitem name (df : DataFrame) s :
  well_formed df = true -> getitem name df = Some s -> length s = len df.
Proof.
  unfold well_formed. generalize (len df) as n. intros n.
  induction df as [|[c s0] df IH]; simpl; [discriminate|].
  intros H. apply andb_true_iff in H as [H1 H2].
  destruct (String.eqb c name).
  - intros [= <-]. now apply Nat.eqb_eq.
  - auto.
Qed.

(** ** Numeric columns *)

Lemma whole_numbers_Some cells values :
  whole_numbers cells = Some values ->
  cells = map (fun z => Some (NInt z)) values.
Proof.
  revert values. induction cells as [|[[z|f]|] cells IH]; intros values; simpl;
    try discriminate.
  - now intros [= <-].
  - destruct (whole_numbers cells) as [vs|]; [|discriminate].
    intros [= <-]. simpl. now rewrite (IH vs).
Qed.

Lemma whole_numbers_length cells values :
  whole_numbers cells = Some values -> length values = length cells.
Proof.
  intros H. rewrite (whole_numbers_Some _ _ H). now rewrite length_map.
Qed.

Lemma to_numeric_length parse_number (series : list pyvalue) :
  column_length (to_numeric parse_number series) = length series.
Proof.
  unfold to_numeric. cbv zeta.
  destruct (whole_numbers _) as [values|] eqn:E.
  - apply whole_numbers_length in E. rewrite length_map in E.
    destruct (forallb (fits int64) values); [exact E|].
    destruct (forallb (fits uint64) values); [exact E|].
    simpl. now rewrite length_map.
  - simpl. now rewrite !length_map.
Qed.

Lemma fillna_length value column :
  column_length (fillna value column) = column_length column.
Proof. destruct column; simpl; [reflexivity|]. now rewrite length_map. Qed.

Lemma whole_amounts_length parse_number (repaid : list pyvalue) d values :
  whole_amounts parse_number repaid = Some (d, values) ->
  length values = length repaid.
Proof.
  unfold whole_amounts. destruct (whole_numbers _) as [vs|] eqn:E; [|discriminate].
  apply whole_numbers_length in E. rewrite length_map in E.
  destruct (forallb (fits int64) vs); [intros [= <- <-]; exact E|].
  destruct (forallb (fits uint64) vs); [intros [= <- <-]; exact E|discriminate].
Qed.

(** The column that the program adds up is the column of coerced amounts
    of the specification. *)
Lemma coerced_column parse_number (repaid : list pyvalue) :
  fillna float_zero (to_numeric parse_number repaid) =
  match whole_amounts parse_number repaid with
  | Some (d, values) => IntColumn d values
  | None => FloatColumn (map (coerced_amount parse_number) repaid)
  end.
Proof.
  unfold to_numeric, whole_amounts. cbv zeta.
  change (numeric_cell parse_number) with (amount_value parse_number).
  destruct (whole_numbers _) as [values|] eqn:E.
  - destruct (forallb (fits int64) values); [reflexivity|].
    destruct (forallb (fits uint64) values); [reflexivity|].
    simpl. f_equal. apply whole_numbers_Some in E.
    unfold coerced_amount.
    rewrite <- (map_map (amount_value parse_number)
                  (fun c => let f := match c with
                                     | Some x => to_float x
                                     | None => S754_nan
                                     end in
                            if float_isnan f then float_zero else f)).
    rewrite E, !map_map. reflexivity.
  - simpl. f_equal. rewrite !map_map. reflexivity.
Qed.

(** * Properties of the pipeline *)

Lemma check_position_run name expected note cols σ :
  check_position name expected note cols σ =
  (Return tt, State (heap σ) (screen σ ++ position_note name expected note cols)).
Proof.
  unfold check_position, position_note. destruct σ as [h s].
  destruct (index name cols) as [i|]; [destruct (negb _)|];
    unfold call, mret, M_ret; simpl; rewrite ?app_nil_r; reflexivity.
Qed.

Lemma deref_run l (df : DataFrame) σ :
  heap σ !! l = Some df -> deref l σ = (Return df, σ).
Proof. intros H. unfold deref. now rewrite H. Qed.

Lemma getitem_ref_run l name (df : DataFrame) s σ :
  heap σ !! l = Some df -> getitem name df = Some s ->
  getitem_ref l name σ = (Return s, σ).
Proof.
  intros H Hs. unfold getitem_ref, mbind, M_bind.
  rewrite (deref_run _ _ _ H), Hs. reflexivity.
Qed.

Lemma percent_repaid_run a b σ :
  percent_repaid a b σ =
  (Return (if float_ltb float_zero b
           then float_mul (float_div a b) (float_of_Z 100)
           else float_zero), σ).
Proof.
  unfold percent_repaid. destruct (float_ltb float_zero b) eqn:Hpos; [|reflexivity].
  unfold mbind, M_bind, truediv.
  destruct b as [s|s| |s m e]; try reflexivity; destruct s; discriminate.
Qed.

Section PipelineProperties.

Variable parse_number : pystr -> option number.
Variable float_group_sum : list float -> float.
Variable float_sum : list float -> float.

Lemma compute_phone_aggregates_run (r : DataFrame) phones repaid σ :
  getitem "Phone Number" r = Some phones ->
  getitem "Total Repaid:" r = Some repaid ->
  compute_phone_aggregates parse_number float_group_sum r σ =
  (Return (value_counts (map extract_last_nine_digits phones),
           groupby_sum float_group_sum (map extract_last_nine_digits phones)
             (fillna float_zero (to_numeric parse_number repaid))),
   State (heap σ) (screen σ ++ phone_note (columns r))).
Proof.
  intros Hp Ha. unfold compute_phone_aggregates.
  assert (Hcp : contains "Phone Number" (columns r) = true)
    by (apply contains_getitem; eauto).
  assert (Hca : contains "Total Repaid:" (columns r) = true)
    by (apply contains_getitem; eauto).
  rewrite Hcp, Hca. cbn [negb]. unfold mbind, M_bind.
  rewrite check_position_run, Hp, Ha. reflexivity.
Qed.

Lemma copy_run l (df : DataFrame) σ :
  heap σ !! l = Some df ->
  copy l σ =
  (Return (fresh (dom (heap σ))),
   State (<[fresh (dom (heap σ)) := df]> (heap σ)) (screen σ)).
Proof. intros H. unfold copy. now rewrite H. Qed.

Lemma update_run l f (df : DataFrame) h s :
  update l f (State (<[l := df]> h) s) = (Return tt, State (<[l := f df]> h) s).
Proof. unfold update. cbn [heap screen]. now rewrite alter_insert_eq. Qed.

Lemma getitem_ref_insert l name (df : DataFrame) col h s :
  getitem name df = Some col ->
  getitem_ref l name (State (<[l := df]> h) s) =
  (Return col, State (<[l := df]> h) s).
Proof.
  intros H. apply (getitem_ref_run l name df); [|exact H].
  cbn [heap]. apply lookup_insert_eq.
Qed.

(** What [main] does when the three named columns are there: the frame it
    builds in a new object, and what it shows. *)
Lemma main_run σ rl wl (r w : DataFrame) phones repaid mobile :
  heap σ !! rl = Some r ->
  heap σ !! wl = Some w ->
  getitem "Phone Number" r = Some phones ->
  getitem "Total Repaid:" r = Some repaid ->
  getitem "mobile" w = Some mobile ->
  let keys := map extract_last_nine_digits phones in
  let counts := value_counts keys in
  let sums :=
    groupby_sum float_group_sum keys (fillna float_zero (to_numeric parse_number repaid)) in
  let table := augmented counts sums mobile w in
  let h := <[fresh (dom (heap σ)) := table]> (heap σ) in
  let notes := phone_note (columns r) ++ mobile_note (columns w) in
  main parse_number float_group_sum float_sum rl wl σ =
  match getitem "Total Writtenoff Derived" w, getitem "amount repayed" table with
  | Some derived, Some repayed =>
      let total_written_off :=
        to_float (series_sum float_sum
                    (fillna float_zero (to_numeric parse_number derived))) in
      let total_repaid_for_writeoffs :=
        to_float (series_sum float_sum
                    (fillna float_zero (to_numeric parse_number repayed))) in
      (Return tt,
       State h
         (screen σ ++ notes ++
          [ st_metric "Number of write-offs" (NInt (Z.of_nat (len table)));
            st_metric "Total amount written off" (NFloat total_written_off);
            st_metric "Total repaid write-offs" (NFloat total_repaid_for_writeoffs);
            st_metric "% of repaid write-offs"
              (NFloat (if float_ltb float_zero total_written_off
                       then float_mul
                              (float_div total_repaid_for_writeoffs total_written_off)
                              (float_of_Z 100)
                       else float_zero));
            st_dataframe table;
            st_download_button table ]))
  | _, _ =>
      (Return tt,
       State h
         (screen σ ++ notes ++
          [ st_error "Expected 'Total Writtenoff Derived' column in writeoffs.xlsx." ]))
  end.
Proof.
  intros Hr Hw Hp Ha Hm keys counts sums table h notes.
  assert (Hcm : contains "mobile" (columns w) = true)
    by (apply contains_getitem; eauto).
  unfold main, mbind, M_bind, try.
  rewrite (deref_run _ _ _ Hr).
  rewrite (compute_phone_aggregates_run r phones repaid σ Hp Ha).
  fold keys. fold counts. fold sums.
  rewrite (deref_run wl w) by exact Hw.
  rewrite Hcm. cbn [negb].
  rewrite check_position_run. cbn [heap screen].
  rewrite (copy_run wl w) by exact Hw. cbn [heap screen].
  set (l' := fresh (dom (heap σ))).
  set (last9 := map (fun v => PyStr (extract_last_nine_digits v)) mobile).
  rewrite (getitem_ref_insert l' "mobile" w mobile) by exact Hm.
  rewrite update_run.
  rewrite (getitem_ref_insert l' "last9_mobile" _ last9)
    by apply getitem_setitem_eq.
  rewrite update_run.
  rewrite (getitem_ref_insert l' "last9_mobile" _ last9)
    by (rewrite getitem_setitem_ne by reflexivity; apply getitem_setitem_eq).
  rewrite !update_run.
  fold (augmented counts sums mobile w). fold table.
  unfold deref at 1. cbn [heap]. rewrite lookup_insert_eq. cbn [default from_option id].
  assert (Hd : getitem "Total Writtenoff Derived" table
               = getitem "Total Writtenoff Derived" w).
  { unfold table, augmented.
    rewrite getitem_drop_column_ne by reflexivity.
    now rewrite !getitem_setitem_ne by reflexivity. }
  assert (Hrep : is_Some (getitem "amount repayed" table)).
  { unfold table, augmented.
    rewrite getitem_drop_column_ne by reflexivity.
    rewrite getitem_setitem_eq. eauto. }
  destruct Hrep as [repayed Hrep]. rewrite Hrep.
  destruct (getitem "Total Writtenoff Derived" w) as [derived|] eqn:Hw'.
  - rewrite (getitem_ref_insert l' _ table derived) by exact Hd.
    rewrite (getitem_ref_insert l' _ table repayed) by exact Hrep.
    rewrite percent_repaid_run.
    unfold call, deref. cbn [heap screen]. rewrite !lookup_insert_eq.
    cbn [default from_option id]. unfold h, notes.
    rewrite <- !app_assoc. reflexivity.
  - unfold getitem_ref at 1, mbind, M_bind.
    unfold deref at 1. cbn [heap]. rewrite lookup_insert_eq.
    cbn [default from_option id].
    replace (getitem "Total Writtenoff Derived" _) with (@None (list pyvalue))
      by (symmetry; exact Hd).
    unfold raise, call. cbn [heap screen]. unfold h, notes.
    rewrite <- !app_assoc. reflexivity.
Qed.

End PipelineProperties.

(** ** The derived columns *)

Lemma lookup_map {A B} (f : A -> B) (l : list A) (i : nat) :
  map f l !! i = f <$> (l !! i).
Proof.
  revert i. induction l as [|x l IH]; intros [|i]; simpl; auto.
Qed.

Lemma augmented_matches counts sums mobile (w : DataFrame) :
  getitem "Repayment Phone Matches" (augmented counts sums mobile w) =
  Some (map (fun v => PyInt (Z.of_nat
               (from_option id 0%nat (counts !! extract_last_nine_digits v))))
            mobile).
Proof.
  unfold augmented. rewrite getitem_drop_column_ne by reflexivity.
  rewrite getitem_setitem_ne by reflexivity.
  rewrite getitem_setitem_eq, map_map. reflexivity.
Qed.

Lemma augmented_amounts counts sums mobile (w : DataFrame) :
  getitem "amount repayed" (augmented counts sums mobile w) =
  Some (map (fun v => PyFloat (to_float
               (sum_table_get sums (PyStr (extract_last_nine_digits v))
                  (NFloat float_zero))))
            mobile).
Proof.
  unfold augmented. rewrite getitem_drop_column_ne by reflexivity.
  rewrite getitem_setitem_eq, map_map. reflexivity.
Qed.

Lemma contains_app name (df : DataFrame) c s :
  contains name (columns (df ++ [(c, s)])) =
  contains name (columns df) || String.eqb name c.
Proof.
  unfold contains, columns. rewrite map_app, existsb_app. simpl.
  now rewrite orb_false_r.
Qed.

(** Without a clash of column names the derived columns come last. *)
Lemma augmented_appends counts sums mobile (w : DataFrame) :
  contains "last9_mobile" (columns w) = false ->
  contains "Repayment Phone Matches" (columns w) = false ->
  contains "amount repayed" (columns w) = false ->
  augmented counts sums mobile w =
  w ++ [ ("Repayment Phone Matches"%string,
          map (fun v => PyInt (Z.of_nat
                 (from_option id 0%nat (counts !! extract_last_nine_digits v))))
              mobile);
         ("amount repayed"%string,
          map (fun v => PyFloat (to_float
                 (sum_table_get sums (PyStr (extract_last_nine_digits v))
                    (NFloat float_zero))))
              mobile) ].
Proof.
  intros H1 H2 H3. unfold augmented.
  rewrite (setitem_fresh "last9_mobile") by exact H1.
  rewrite (setitem_fresh "Repayment Phone Matches")
    by (rewrite contains_app, H2; reflexivity).
  rewrite (setitem_fresh "amount repayed")
    by (rewrite !contains_app, H3; reflexivity).
  unfold drop_column. rewrite !List.filter_app.
  fold (drop_column "last9_mobile" w). rewrite (drop_column_fresh _ _ H1).
  cbn [List.filter fst negb String.eqb Ascii.eqb Bool.eqb andb app].
  rewrite !map_map, app_nil_r, <- app_assoc. reflexivity.
Qed.

(** * The claims about the pipeline *)

Lemma position_note_warnings name expected note cols :
  errors (position_note name expected note cols) = [] /\
  displayed (position_note name expected note cols) = [].
Proof.
  unfold position_note.
  destruct (index name cols); [destruct (negb _)|]; split; reflexivity.
Qed.

Lemma contains_index name cols :
  contains name cols = true -> is_Some (index name cols).
Proof.
  unfold contains. induction cols as [|c cols IH]; simpl; [discriminate|].
  rewrite (String.eqb_sym name c). destruct (String.eqb c name); simpl; [eauto|].
  intros H. destruct (IH H) as [i ->]. simpl. eauto.
Qed.

Section Claims.

Variable parse_number : pystr -> option number.
Variable float_group_sum : list float -> float.
Variable float_sum : list float -> float.

(** ** C4 *)

(** C4: the count table built from a repayments frame conserves rows: the
    counts add up to the number of rows, and the entry of each key is the
    number of rows with that key (the empty key included), whatever the
    amounts are. *)
Theorem count_table_conserves_rows (repayments : DataFrame) phones σ :
  well_formed repayments = true ->
  getitem "Phone Number" repayments = Some phones ->
  contains "Total Repaid:" (columns repayments) = true ->
  exists counts sums σ',
    compute_phone_aggregates parse_number float_group_sum repayments σ
      = (Return (counts, sums), σ') /\
    table_total counts = len repayments /\
    forall key,
      from_option id 0%nat (counts !! key)
      = scan_count key (map extract_last_nine_digits phones).
Proof.
  intros Hwf Hp Ha. apply contains_getitem in Ha as [repaid Ha].
  eexists _, _, _.
  split; [apply (compute_phone_aggregates_run _ _ _ _ _ _ Hp Ha)|].
  split.
  - unfold value_counts. rewrite table_total_fold. unfold table_total.
    rewrite map_fold_empty, length_map, (well_formed_getitem _ _ _ Hwf Hp). lia.
  - intros key. rewrite value_counts_lookup.
    destruct (decide _) as [E|E]; [now rewrite E | reflexivity].
Qed.

(** ** C5 *)

Lemma metric_shown label calls shown value :
  metric label shown = Some value -> metric label (calls ++ shown) = Some value.
Proof.
  unfold metric. intros H. now rewrite omap_app, last_app, H.
Qed.

(** C5: [percent_repaid] is the ratio times 100 when the total written off
    is positive and 0.0 otherwise, in particular when that total is zero,
    whatever the total repaid; it always returns, so no division by zero
    is raised. The percentage that a complete run of [main] shows is this
    function of the two totals it shows. *)
Theorem percent_repaid_guarded :
  (forall total_repaid_for_writeoffs total_written_off σ,
     exists percent,
       percent_repaid total_repaid_for_writeoffs total_written_off σ
         = (Return percent, σ) /\
       (float_ltb float_zero total_written_off = true ->
        percent = float_mul (float_div total_repaid_for_writeoffs total_written_off)
                    (float_of_Z 100)) /\
       (float_ltb float_zero total_written_off = false -> percent = float_zero) /\
       (float_is_zero total_written_off = true -> percent = float_zero)) /\
  (forall σ rl wl (r w : DataFrame) phones repaid mobile derived,
     heap σ !! rl = Some r ->
     heap σ !! wl = Some w ->
     getitem "Phone Number" r = Some phones ->
     getitem "Total Repaid:" r = Some repaid ->
     getitem "mobile" w = Some mobile ->
     getitem "Total Writtenoff Derived" w = Some derived ->
     exists σ' total_written_off total_repaid_for_writeoffs percent,
       main parse_number float_group_sum float_sum rl wl σ = (Return tt, σ') /\
       metric "Total amount written off" (screen σ')
         = Some (NFloat total_written_off) /\
       metric "Total repaid write-offs" (screen σ')
         = Some (NFloat total_repaid_for_writeoffs) /\
       metric "% of repaid write-offs" (screen σ') = Some (NFloat percent) /\
       percent_repaid total_repaid_for_writeoffs total_written_off σ'
         = (Return percent, σ')).
Proof.
  split.
  - intros a b σ. eexists. split; [apply percent_repaid_run|].
    destruct (float_ltb float_zero b) eqn:Hpos.
    + split; [reflexivity|]. split; [discriminate|].
      intros E. destruct b; discriminate.
    + split; [discriminate|]. split; reflexivity.
  - intros σ rl wl r w phones repaid mobile derived Hr Hw Hp Ha Hm Hd.
    pose proof (main_run parse_number float_group_sum float_sum σ rl wl r w
                  phones repaid mobile Hr Hw Hp Ha Hm) as Hrun.
    cbv zeta in Hrun. rewrite Hd, augmented_amounts in Hrun.
    eexists _, _, _, _. split; [exact Hrun|]. cbn [screen].
    rewrite !app_assoc.
    split; [apply metric_shown; reflexivity|].
    split; [apply metric_shown; reflexivity|].
    split; [apply metric_shown; reflexivity|].
    apply percent_repaid_run.
Qed.

(** ** C6 *)

Lemma main_without_repayments_column σ rl wl (r : DataFrame) :
  heap σ !! rl = Some r ->
  contains "Phone Number" (columns r) = false \/
  contains "Total Repaid:" (columns r) = false ->
  main parse_number float_group_sum float_sum rl wl σ =
  (Return tt,
   State (heap σ)
     (screen σ ++
      [st_error
         (if negb (contains "Phone Number" (columns r)) then
            exn_str (KeyError "Expected 'Phone Number' column (column S) in Repayments.xlsx.")
          else
            exn_str (KeyError "Expected 'Total Repaid:' column in Repayments.xlsx."))])).
Proof.
  intros Hr H. unfold main, mbind, M_bind, try.
  rewrite (deref_run _ _ _ Hr). unfold compute_phone_aggregates.
  destruct (contains "Phone Number" (columns r)); cbn [negb].
  - destruct H as [H|H]; [discriminate|]. rewrite H. reflexivity.
  - reflexivity.
Qed.

Lemma main_without_mobile σ rl wl (r w : DataFrame) :
  heap σ !! rl = Some r ->
  heap σ !! wl = Some w ->
  contains "Phone Number" (columns r) = true ->
  contains "Total Repaid:" (columns r) = true ->
  contains "mobile" (columns w) = false ->
  main parse_number float_group_sum float_sum rl wl σ =
  (Return tt,
   State (heap σ)
     (screen σ ++ phone_note (columns r) ++
      [st_error "Expected 'mobile' column (column D) in writeoffs.xlsx."])).
Proof.
  intros Hr Hw Hp Ha Hm.
  apply contains_getitem in Hp as [phones Hp].
  apply contains_getitem in Ha as [repaid Ha].
  unfold main, mbind, M_bind, try.
  rewrite (deref_run _ _ _ Hr).
  rewrite (compute_phone_aggregates_run parse_number float_group_sum
             r phones repaid σ Hp Ha).
  rewrite (deref_run wl w) by exact Hw.
  rewrite Hm. unfold call. cbn [negb heap screen].
  now rewrite <- app_assoc.
Qed.

(** C6: when "Phone Number" or "Total Repaid:" is absent from the
    repayments, or "mobile" from the write-offs, [main] returns having
    shown one error and nothing after it: the text of the error is the
    message that names the first missing column and its file (between
    double quotes when it comes from the exception raised by
    [compute_phone_aggregates]). Nothing is shown before it either, but
    for the warning about the position of "Phone Number" when it is the
    write-offs that lack "mobile" and that column is not the 19th. No
    figure, no table and no download is shown, and no frame is created or
    changed. *)
Theorem missing_column_is_fatal σ rl wl (r w : DataFrame) :
  heap σ !! rl = Some r ->
  heap σ !! wl = Some w ->
  contains "Phone Number" (columns r) = false \/
  contains "Total Repaid:" (columns r) = false \/
  contains "mobile" (columns w) = false ->
  main parse_number float_group_sum float_sum rl wl σ =
  (Return tt,
   State (heap σ)
     (screen σ ++
      if negb (contains "Phone Number" (columns r)) then
        [st_error (double_quote
                   ++ "Expected 'Phone Number' column (column S) in Repayments.xlsx."
                   ++ double_quote)]
      else if negb (contains "Total Repaid:" (columns r)) then
        [st_error (double_quote
                   ++ "Expected 'Total Repaid:' column in Repayments.xlsx."
                   ++ double_quote)]
      else
        (if decide (index "Phone Number" (columns r) = Some 18%nat) then []
         else [st_warning
                 "'Phone Number' is not at expected column S; proceeding with the named column."])
        ++ [st_error "Expected 'mobile' column (column D) in writeoffs.xlsx."])).
Proof.
  intros Hr Hw H.
  destruct (contains "Phone Number" (columns r)) eqn:Hp.
  - destruct (contains "Total Repaid:" (columns r)) eqn:Ha.
    + destruct H as [H|[H|H]]; try discriminate.
      rewrite (main_without_mobile _ _ _ _ _ Hr Hw Hp Ha H). cbn [negb].
      do 3 f_equal. unfold phone_note, position_note.
      destruct (contains_index _ _ Hp) as [i ->].
      destruct (Nat.eqb_spec i 18) as [->|Hne]; cbn [negb].
      * now rewrite decide_True.
      * rewrite decide_False; [reflexivity|]. intros [= E]. contradiction.
    + rewrite (main_without_repayments_column _ _ _ _ Hr) by auto.
      rewrite Hp. reflexivity.
  - rewrite (main_without_repayments_column _ _ _ _ Hr) by auto.
    rewrite Hp. reflexivity.
Qed.

End Claims.

Section Join.

Variable parse_number : pystr -> option number.
Variable float_group_sum : list float -> float.
Variable float_sum : list float -> float.

(** What a complete run shows and leaves in the store. *)
Lemma main_shows σ rl wl (r w : DataFrame) phones repaid mobile derived :
  heap σ !! rl = Some r ->
  heap σ !! wl = Some w ->
  getitem "Phone Number" r = Some phones ->
  getitem "Total Repaid:" r = Some repaid ->
  getitem "mobile" w = Some mobile ->
  getitem "Total Writtenoff Derived" w = Some derived ->
  let keys := map extract_last_nine_digits phones in
  let table :=
    augmented (value_counts keys)
      (groupby_sum float_group_sum keys
         (fillna float_zero (to_numeric parse_number repaid)))
      mobile w in
  exists σ',
    main parse_number float_group_sum float_sum rl wl σ = (Return tt, σ') /\
    heap σ' = <[fresh (dom (heap σ)) := table]> (heap σ) /\
    displayed (screen σ') = displayed (screen σ) ++ [table] /\
    errors (screen σ') = errors (screen σ).
Proof.
  intros Hr Hw Hp Ha Hm Hd keys table.
  pose proof (main_run parse_number float_group_sum float_sum σ rl wl r w
                phones repaid mobile Hr Hw Hp Ha Hm) as Hrun.
  cbv zeta in Hrun. fold keys in Hrun. fold table in Hrun.
  rewrite Hd in Hrun. unfold table at 1 in Hrun.
  rewrite augmented_amounts in Hrun. fold table in Hrun.
  eexists. split; [exact Hrun|]. cbn [heap screen].
  split; [reflexivity|].
  unfold displayed, errors. rewrite !omap_app. fold (displayed (screen σ)).
  fold (errors (screen σ)).
  fold (displayed (phone_note (columns r))) (displayed (mobile_note (columns w))).
  fold (errors (phone_note (columns r))) (errors (mobile_note (columns w))).
  unfold phone_note, mobile_note.
  rewrite !(proj1 (position_note_warnings _ _ _ _)).
  rewrite !(proj2 (position_note_warnings _ _ _ _)).
  cbn [omap app]. rewrite ?app_nil_r. split; reflexivity.
Qed.


Lemma count_lookup (keys : list (list N)) key :
  from_option id 0%nat (value_counts keys !! key) = scan_count key keys.
Proof.
  rewrite value_counts_lookup.
  destruct (decide _) as [E|E]; [now rewrite E | reflexivity].
Qed.

(** The amount looked up for one write-off row, against a direct scan. *)
Lemma amount_lookup (r : DataFrame) phones repaid key :
  well_formed r = true ->
  getitem "Phone Number" r = Some phones ->
  getitem "Total Repaid:" r = Some repaid ->
  let keys := map extract_last_nine_digits phones in
  to_float
    (sum_table_get
       (groupby_sum float_group_sum keys
          (fillna float_zero (to_numeric parse_number repaid)))
       (PyStr key) (NFloat float_zero)) =
  if decide (scan_count key keys = 0%nat) then float_zero
  else key_amount parse_number float_group_sum key phones repaid.
Proof.
  intros Hwf Hp Ha keys.
  assert (Hlen : length keys = length repaid).
  { unfold keys. rewrite length_map, (well_formed_getitem _ _ _ Hwf Hp).
    now rewrite (well_formed_getitem _ _ _ Hwf Ha). }
  rewrite coerced_column. unfold key_amount. fold keys.
  destruct (whole_amounts parse_number repaid) as [[d values]|] eqn:E;
    cbn [groupby_sum sum_table_get].
  - rewrite int_fold_lookup, lookup_empty, wrap_modular.
    rewrite zip_keys
      by (rewrite Hlen; symmetry; apply (whole_amounts_length _ _ _ _ E)).
    destruct (decide _); reflexivity.
  - rewrite lookup_fmap, group_fold_lookup, lookup_empty.
    rewrite zip_keys by (now rewrite length_map).
    destruct (decide _); reflexivity.
Qed.

(** ** C3 *)

(** C3 (amended): in the table that [main] shows, the match count of each
    write-off row is the number of repayment rows with the row's key. Its
    amount repaid is 0.0 when no repayment row has the key, and otherwise
    the sum of the coerced amounts of the rows with that key as the
    arithmetic of the amounts column computes it: for a column of whole
    numbers the sum in 64-bit integers, that is modulo 2^64, made a float;
    for any other column the library's float summation of those amounts in
    row order, 0.0 standing for what is not a number. When the amounts are
    whole numbers and the sum of the key fits their integer type, the
    amount is that sum, made a float. *)
Theorem derived_fields_as_computed σ rl wl (r w : DataFrame)
    phones repaid mobile derived :
  heap σ !! rl = Some r ->
  heap σ !! wl = Some w ->
  well_formed r = true ->
  getitem "Phone Number" r = Some phones ->
  getitem "Total Repaid:" r = Some repaid ->
  getitem "mobile" w = Some mobile ->
  getitem "Total Writtenoff Derived" w = Some derived ->
  exists σ' table matches amounts,
    main parse_number float_group_sum float_sum rl wl σ = (Return tt, σ') /\
    displayed (screen σ') = displayed (screen σ) ++ [table] /\
    getitem "Repayment Phone Matches" table = Some matches /\
    getitem "amount repayed" table = Some amounts /\
    forall i v,
      mobile !! i = Some v ->
      let key := extract_last_nine_digits v in
      let keys := map extract_last_nine_digits phones in
      matches !! i = Some (PyInt (Z.of_nat (scan_count key keys))) /\
      amounts !! i =
        Some (PyFloat (if decide (scan_count key keys = 0%nat) then float_zero
                       else key_amount parse_number float_group_sum key phones repaid)) /\
      forall d values,
        whole_amounts parse_number repaid = Some (d, values) ->
        fits d (Zsum (key_values key (zip keys values))) = true ->
        amounts !! i =
          Some (PyFloat (float_of_Z (Zsum (key_values key (zip keys values))))).
Proof.
  intros Hr Hw Hwf Hp Ha Hm Hd.
  destruct (main_shows σ rl wl r w phones repaid mobile derived
              Hr Hw Hp Ha Hm Hd) as (σ' & Hrun & _ & Hshown & _).
  eexists σ', _, _, _. split; [exact Hrun|]. split; [exact Hshown|].
  split; [apply augmented_matches|]. split; [apply augmented_amounts|].
  intros i v Hv. cbv zeta.
  rewrite !lookup_map, Hv. cbn [fmap option_fmap option_map].
  rewrite count_lookup, (amount_lookup r phones repaid _ Hwf Hp Ha).
  split; [reflexivity|]. split; [reflexivity|].
  intros d values Hwhole Hfits. do 2 f_equal.
  destruct (decide _) as [E|E].
  - rewrite key_values_absent; [reflexivity|].
    rewrite zip_keys; [exact E|].
    rewrite (whole_amounts_length _ _ _ _ Hwhole), length_map.
    rewrite (well_formed_getitem _ _ _ Hwf Hp).
    now rewrite (well_formed_getitem _ _ _ Hwf Ha).
  - unfold key_amount. rewrite Hwhole.
    now rewrite <- wrap_modular, (wrap_fits _ _ Hfits).
Qed.

(** ** C9 *)

(** C9: in the table that [main] shows, each write-off row carries an
    integer match count and a float amount repaid, and a nonzero amount
    comes with a match count of at least 1; a match count of 0 comes with
    the amount 0.0. *)
Theorem nonzero_amount_has_match σ rl wl (r w : DataFrame) phones repaid mobile derived :
  heap σ !! rl = Some r ->
  heap σ !! wl = Some w ->
  well_formed r = true ->
  getitem "Phone Number" r = Some phones ->
  getitem "Total Repaid:" r = Some repaid ->
  getitem "mobile" w = Some mobile ->
  getitem "Total Writtenoff Derived" w = Some derived ->
  exists σ' table matches amounts,
    main parse_number float_group_sum float_sum rl wl σ = (Return tt, σ') /\
    displayed (screen σ') = displayed (screen σ) ++ [table] /\
    getitem "Repayment Phone Matches" table = Some matches /\
    getitem "amount repayed" table = Some amounts /\
    length matches = length mobile /\
    length amounts = length mobile /\
    forall i,
      (i < length mobile)%nat ->
      exists match_count amount_repaid,
        matches !! i = Some (PyInt match_count) /\
        amounts !! i = Some (PyFloat amount_repaid) /\
        (float_is_zero amount_repaid = false -> 1 <= match_count) /\
        (amount_repaid <> float_zero -> 1 <= match_count) /\
        (match_count = 0 -> amount_repaid = float_zero).
Proof.
  intros Hr Hw Hwf Hp Ha Hm Hd.
  destruct (main_shows σ rl wl r w phones repaid mobile derived
              Hr Hw Hp Ha Hm Hd) as (σ' & Hrun & _ & Hshown & _).
  eexists σ', _, _, _. split; [exact Hrun|]. split; [exact Hshown|].
  split; [apply augmented_matches|]. split; [apply augmented_amounts|].
  rewrite !length_map. split; [reflexivity|]. split; [reflexivity|].
  intros i Hi. destruct (lookup_lt_is_Some_2 mobile i Hi) as [v Hv].
  eexists _, _. rewrite !lookup_map, Hv. cbn [fmap option_fmap option_map].
  split; [reflexivity|]. split; [reflexivity|].
  rewrite count_lookup, (amount_lookup r phones repaid _ Hwf Hp Ha).
  destruct (decide _) as [E|E].
  - split; [discriminate|]. split; [congruence | reflexivity].
  - split; [lia|]. split; lia.
Qed.

(** ** C7 *)

(** C7 (amended): when the write-offs have no column named "last9_mobile",
    "Repayment Phone Matches" or "amount repayed", the table that [main]
    shows is the input followed by exactly two columns, the integer match
    counts and then the float amounts repaid; the table is a new object,
    and the input frame, like every other object, is left as it was. *)
Theorem augmented_table_frame σ rl wl (r w : DataFrame) phones repaid mobile derived :
  heap σ !! rl = Some r ->
  heap σ !! wl = Some w ->
  getitem "Phone Number" r = Some phones ->
  getitem "Total Repaid:" r = Some repaid ->
  getitem "mobile" w = Some mobile ->
  getitem "Total Writtenoff Derived" w = Some derived ->
  contains "last9_mobile" (columns w) = false ->
  contains "Repayment Phone Matches" (columns w) = false ->
  contains "amount repayed" (columns w) = false ->
  exists σ' (counts : list Z) (amounts : list float) new,
    main parse_number float_group_sum float_sum rl wl σ = (Return tt, σ') /\
    displayed (screen σ') =
      displayed (screen σ) ++
      [ w ++ [ ("Repayment Phone Matches"%string, map PyInt counts);
               ("amount repayed"%string, map PyFloat amounts) ] ] /\
    length counts = length mobile /\
    length amounts = length mobile /\
    heap σ !! new = None /\
    heap σ' !! wl = Some w /\
    forall l, l <> new -> heap σ' !! l = heap σ !! l.
Proof.
  intros Hr Hw Hp Ha Hm Hd H1 H2 H3.
  destruct (main_shows σ rl wl r w phones repaid mobile derived
              Hr Hw Hp Ha Hm Hd) as (σ' & Hrun & Hheap & Hshown & _).
  rewrite (augmented_appends _ _ _ _ H1 H2 H3) in Hshown.
  assert (Hnew : heap σ !! fresh (dom (heap σ)) = None).
  { apply not_elem_of_dom. apply is_fresh. }
  exists σ'. eexists (map _ mobile), (map _ mobile), (fresh (dom (heap σ))).
  split; [exact Hrun|]. rewrite !map_map. split; [exact Hshown|].
  rewrite !length_map. split; [reflexivity|]. split; [reflexivity|].
  split; [exact Hnew|]. rewrite Hheap. split.
  - rewrite lookup_insert_ne; [exact Hw|]. intros E. rewrite E in Hnew. congruence.
  - intros l Hl. now rewrite lookup_insert_ne.
Qed.

End Join.

(** * Worked examples *)

(** ** C2 *)

(** C2: the end-to-end scenario. Both repayment phones normalise to
    "712345678", whose count is 2 and whose sum is 150 (the amounts are
    whole numbers, and so is their sum in the table); the write-off row
    gets match count 2 and amount repaid 150.0; the totals are 200.0 and
    150.0 and the percentage is 75.0. *)
Theorem end_to_end_scenario :
  map extract_last_nine_digits scenario_phones
    = [text "712345678"; text "712345678"] /\
  match compute_phone_aggregates parse_decimal sum_in_order
          scenario_repayments scenario_state with
  | (Return (counts, sums), _) =>
      counts !! text "712345678" = Some 2%nat /\
      sum_table_get sums (PyStr (text "712345678")) (NFloat float_zero) = NInt 150
  | _ => False
  end /\
  let run := run_main scenario_state in
  run.1 = Return tt /\
  displayed (screen run.2) =
    [ scenario_writeoffs ++
      [ ("Repayment Phone Matches"%string, [PyInt 2]);
        ("amount repayed"%string, [PyFloat (float_of_Z 150)]) ] ] /\
  metric "Total amount written off" (screen run.2) = Some (NFloat (float_of_Z 200)) /\
  metric "Total repaid write-offs" (screen run.2) = Some (NFloat (float_of_Z 150)) /\
  metric "% of repaid write-offs" (screen run.2) = Some (NFloat (float_of_Z 75)) /\
  map float_repr [float_of_Z 150; float_of_Z 200; float_of_Z 75]
    = [text "150.0"; text "200.0"; text "75.0"].
Proof.
  split; [reflexivity|]. split; [vm_compute; split; reflexivity|].
  cbv zeta. repeat split; evaluated.
Qed.

(** ** C3: amounts that overflow *)

(** C3, as stated, fails where the arithmetic of the amounts column does
    not give the sum. The amounts "9223372036854775807" and "1" are whole
    numbers, so the column is one of signed 64-bit integers; the two rows
    have one key, and their sum wraps around to -9223372036854775808. The
    amount attached to the write-off row is that number, not the sum of
    the two amounts. *)
Lemma amount_wraps_around :
  let phones := [PyStr (text "0712345678"); PyStr (text "255712345678")] in
  let repaid := [PyStr (text "9223372036854775807"); PyStr (text "1")] in
  let run := run_main (loaded overflowing_repayments scenario_writeoffs) in
  getitem "Phone Number" overflowing_repayments = Some phones /\
  getitem "Total Repaid:" overflowing_repayments = Some repaid /\
  map extract_last_nine_digits phones = [text "712345678"; text "712345678"] /\
  map extract_last_nine_digits scenario_mobile = [text "712345678"] /\
  map parse_decimal [text "9223372036854775807"; text "1"]
    = [Some (NInt 9223372036854775807); Some (NInt 1)] /\
  run.1 = Return tt /\
  displayed (screen run.2) =
    [ scenario_writeoffs ++
      [ ("Repayment Phone Matches"%string, [PyInt 2]);
        ("amount repayed"%string, [PyFloat (float_of_Z (- 2 ^ 63))]) ] ] /\
  float_repr (float_of_Z (- 2 ^ 63)) = text "-9.223372036854776e+18" /\
  float_of_Z (- 2 ^ 63) <> float_of_Z (9223372036854775807 + 1).
Proof. cbv zeta. repeat split; try evaluated. vm_compute. discriminate. Qed.

(** ** C10 *)

(** C10: write-off rows that share a key are each given the full amount
    repaid under that key, whatever the inputs; and there is an input pair
    whose percentage repaid exceeds 100. In it the write-offs have none of
    the derived columns beforehand; the one repayment, of 100, is all that
    was repaid; the two write-off rows have its key and are each given
    100.0, so the total repaid, 200.0, counts the repayment twice and
    exceeds the total written off, 120.0; the percentage shown is
    166.66666666666669. *)
Theorem percent_repaid_can_exceed_100 :
  (forall parse_number float_group_sum float_sum σ rl wl (r w : DataFrame)
          phones repaid mobile derived,
     heap σ !! rl = Some r ->
     heap σ !! wl = Some w ->
     well_formed r = true ->
     getitem "Phone Number" r = Some phones ->
     getitem "Total Repaid:" r = Some repaid ->
     getitem "mobile" w = Some mobile ->
     getitem "Total Writtenoff Derived" w = Some derived ->
     exists σ' table amounts,
       main parse_number float_group_sum float_sum rl wl σ = (Return tt, σ') /\
       displayed (screen σ') = displayed (screen σ) ++ [table] /\
       getitem "amount repayed" table = Some amounts /\
       forall i j vi vj,
         mobile !! i = Some vi ->
         mobile !! j = Some vj ->
         extract_last_nine_digits vi = extract_last_nine_digits vj ->
         scan_count (extract_last_nine_digits vi)
           (map extract_last_nine_digits phones) <> 0%nat ->
         let amount :=
           key_amount parse_number float_group_sum
             (extract_last_nine_digits vi) phones repaid in
         amounts !! i = Some (PyFloat amount) /\
         amounts !! j = Some (PyFloat amount)) /\
  (exists (repayments writeoffs : DataFrame) phones repaid mobile percent,
     well_formed repayments = true /\ well_formed writeoffs = true /\
     getitem "Phone Number" repayments = Some phones /\
     getitem "Total Repaid:" repayments = Some repaid /\
     getitem "mobile" writeoffs = Some mobile /\
     contains "last9_mobile" (columns writeoffs) = false /\
     contains "Repayment Phone Matches" (columns writeoffs) = false /\
     contains "amount repayed" (columns writeoffs) = false /\
     length phones = 1%nat /\
     series_sum sum_in_order (fillna float_zero (to_numeric parse_decimal repaid))
       = NInt 100 /\
     map extract_last_nine_digits mobile = [text "712345678"; text "712345678"] /\
     key_amount parse_decimal sum_in_order (text "712345678") phones repaid
       = float_of_Z 100 /\
     let run := run_main (loaded repayments writeoffs) in
     run.1 = Return tt /\
     displayed (screen run.2) =
       [ writeoffs ++
         [ ("Repayment Phone Matches"%string, [PyInt 1; PyInt 1]);
           ("amount repayed"%string,
            [PyFloat (float_of_Z 100); PyFloat (float_of_Z 100)]) ] ] /\
     metric "Total repaid write-offs" (screen run.2) = Some (NFloat (float_of_Z 200)) /\
     metric "Total amount written off" (screen run.2) = Some (NFloat (float_of_Z 120)) /\
     metric "% of repaid write-offs" (screen run.2) = Some (NFloat percent) /\
     float_ltb (float_of_Z 100) percent = true /\
     float_repr percent = text "166.66666666666669").
Proof.
  split.
  - intros parse_number float_group_sum float_sum σ rl wl r w phones repaid
      mobile derived Hr Hw Hwf Hp Ha Hm Hd.
    destruct (main_shows parse_number float_group_sum float_sum σ rl wl r w
                phones repaid mobile derived Hr Hw Hp Ha Hm Hd)
      as (σ' & Hrun & _ & Hshown & _).
    eexists σ', _, _. split; [exact Hrun|]. split; [exact Hshown|].
    split; [apply augmented_amounts|].
    intros i j vi vj Hi Hj Hkey Hsome. cbv zeta.
    rewrite !lookup_map, Hi, Hj. cbn [fmap option_fmap option_map].
    rewrite <- Hkey.
    rewrite (amount_lookup parse_number float_group_sum r phones repaid _ Hwf Hp Ha).
    rewrite decide_False by exact Hsome. split; reflexivity.
  - exists shared_key_repayments, shared_key_writeoffs.
    eexists _, _, _, _.
    do 5 (split; [reflexivity|]).
    repeat split; evaluated.
Qed.

Lemma percent_repaid_can_exceed_100_witness :
  exists σ' table amounts,
    run_main (loaded shared_key_repayments shared_key_writeoffs) = (Return tt, σ') /\
    displayed (screen σ') = [table] /\
    getitem "amount repayed" table = Some amounts /\
    amounts !! 0%nat = Some (PyFloat (float_of_Z 100)) /\
    amounts !! 1%nat = Some (PyFloat (float_of_Z 100)).
Proof.
  destruct (proj1 percent_repaid_can_exceed_100
              parse_decimal sum_in_order sum_in_order
              (loaded shared_key_repayments shared_key_writeoffs)
              1%positive 2%positive shared_key_repayments shared_key_writeoffs
              [PyStr (text "0712345678")] [PyStr (text "100")]
              [PyStr (text "0712345678"); PyStr (text "+254 712 345 678")]
              [PyStr (text "60"); PyStr (text "60")])
    as (σ' & table & amounts & Hrun & Hshown & Hget & Hrows);
    [reflexivity.. |].
  exists σ', table, amounts. split; [exact Hrun|]. split; [exact Hshown|].
  split; [exact Hget|].
  apply (Hrows 0%nat 1%nat (PyStr (text "0712345678"))
           (PyStr (text "+254 712 345 678"))); [reflexivity.. |].
  vm_compute. discriminate.
Defined.

(** ** C7: a clash of column names *)

(** C7, as stated, fails on such a file: the column "amount repayed" is
    overwritten where it stands, the column "last9_mobile" is removed, and
    only the match count is appended, so the table shown is not the input
    followed by two columns. *)
Lemma clashing_columns_are_replaced :
  let run := run_main (loaded shared_key_repayments clashing_writeoffs) in
  displayed (screen run.2) =
    [ [ ("mobile"%string, [PyStr (text "0712345678")]);
        ("amount repayed"%string, [PyFloat (float_of_Z 100)]);
        ("Total Writtenoff Derived"%string, [PyStr (text "60")]);
        ("Repayment Phone Matches"%string, [PyInt 1]) ] ] /\
  ~ exists table matches amounts,
      displayed (screen run.2) = [table] /\
      table = clashing_writeoffs ++
              [ ("Repayment Phone Matches"%string, matches);
                ("amount repayed"%string, amounts) ].
Proof.
  cbv zeta.
  assert (E : displayed (screen (run_main
                 (loaded shared_key_repayments clashing_writeoffs)).2) =
    [ [ ("mobile"%string, [PyStr (text "0712345678")]);
        ("amount repayed"%string, [PyFloat (float_of_Z 100)]);
        ("Total Writtenoff Derived"%string, [PyStr (text "60")]);
        ("Repayment Phone Matches"%string, [PyInt 1]) ] ])
    by evaluated.
  split; [exact E|].
  intros (table & matches & amounts & Ht & ->). rewrite E in Ht.
  apply (f_equal (fun l => length <$> head l)) in Ht. discriminate.
Qed.

(** * The general statements at the worked examples *)

Lemma count_table_conserves_rows_witness :
  exists counts sums σ',
    compute_phone_aggregates parse_decimal sum_in_order
      scenario_repayments scenario_state
      = (Return (counts, sums), σ') /\
    table_total counts = len scenario_repayments /\
    forall key,
      from_option id 0%nat (counts !! key)
      = scan_count key (map extract_last_nine_digits scenario_phones).
Proof.
  apply (count_table_conserves_rows parse_decimal sum_in_order scenario_repayments
           scenario_phones scenario_state); reflexivity.
Defined.

Lemma percent_repaid_guarded_witness :
  (exists percent,
     percent_repaid (float_of_Z 150) (float_of_Z 200) scenario_state
       = (Return percent, scenario_state) /\
     percent = float_mul (float_div (float_of_Z 150) (float_of_Z 200)) (float_of_Z 100)) /\
  (exists percent,
     percent_repaid (float_of_Z 150) float_zero scenario_state
       = (Return percent, scenario_state) /\
     percent = float_zero) /\
  (exists σ' total_written_off total_repaid_for_writeoffs percent,
     run_main scenario_state = (Return tt, σ') /\
     metric "Total amount written off" (screen σ') = Some (NFloat total_written_off) /\
     metric "Total repaid write-offs" (screen σ')
       = Some (NFloat total_repaid_for_writeoffs) /\
     metric "% of repaid write-offs" (screen σ') = Some (NFloat percent) /\
     percent_repaid total_repaid_for_writeoffs total_written_off σ'
       = (Return percent, σ')).
Proof.
  split; [|split].
  - destruct (proj1 (percent_repaid_guarded parse_decimal sum_in_order sum_in_order)
                (float_of_Z 150) (float_of_Z 200) scenario_state)
      as (percent & Hrun & Hpos & _).
    exists percent. split; [exact Hrun | apply Hpos; reflexivity].
  - destruct (proj1 (percent_repaid_guarded parse_decimal sum_in_order sum_in_order)
                (float_of_Z 150) float_zero scenario_state)
      as (percent & Hrun & _ & _ & Hzero).
    exists percent. split; [exact Hrun | apply Hzero; reflexivity].
  - apply (proj2 (percent_repaid_guarded parse_decimal sum_in_order sum_in_order)
             scenario_state
             1%positive 2%positive scenario_repayments scenario_writeoffs
             scenario_phones scenario_repaid scenario_mobile scenario_derived);
      reflexivity.
Defined.

Lemma missing_column_is_fatal_witness :
  run_main (loaded scenario_repayments unnamed_writeoffs) =
  (Return tt,
   State (heap (loaded scenario_repayments unnamed_writeoffs))
     [ st_warning
         "'Phone Number' is not at expected column S; proceeding with the named column.";
       st_error "Expected 'mobile' column (column D) in writeoffs.xlsx." ]).
Proof.
  apply (missing_column_is_fatal parse_decimal sum_in_order sum_in_order
           (loaded scenario_repayments unnamed_writeoffs)
           1%positive 2%positive scenario_repayments unnamed_writeoffs);
    [reflexivity | reflexivity | right; right; reflexivity].
Defined.

Lemma derived_fields_as_computed_witness :
  (exists σ' table matches amounts,
     run_main scenario_state = (Return tt, σ') /\
     displayed (screen σ') = displayed (screen scenario_state) ++ [table] /\
     getitem "Repayment Phone Matches" table = Some matches /\
     getitem "amount repayed" table = Some amounts /\
     forall i v,
       scenario_mobile !! i = Some v ->
       let key := extract_last_nine_digits v in
       let keys := map extract_last_nine_digits scenario_phones in
       matches !! i = Some (PyInt (Z.of_nat (scan_count key keys))) /\
       amounts !! i =
         Some (PyFloat (if decide (scan_count key keys = 0%nat) then float_zero
                        else key_amount parse_decimal sum_in_order key
                               scenario_phones scenario_repaid)) /\
       forall d values,
         whole_amounts parse_decimal scenario_repaid = Some (d, values) ->
         fits d (Zsum (key_values key (zip keys values))) = true ->
         amounts !! i =
           Some (PyFloat (float_of_Z (Zsum (key_values key (zip keys values)))))) /\
  (exists σ' table matches amounts amount,
     run_main (loaded decimal_repayments scenario_writeoffs) = (Return tt, σ') /\
     displayed (screen σ') = [table] /\
     getitem "Repayment Phone Matches" table = Some matches /\
     getitem "amount repayed" table = Some amounts /\
     matches !! 0%nat = Some (PyInt 2) /\
     amounts !! 0%nat = Some (PyFloat amount) /\
     amount = float_add (read_decimal false 1 (-1)) (read_decimal false 2 (-1)) /\
     float_repr amount = text "0.30000000000000004").
Proof.
  split.
  - apply (derived_fields_as_computed parse_decimal sum_in_order sum_in_order
             scenario_state 1%positive 2%positive
             scenario_repayments scenario_writeoffs scenario_phones scenario_repaid
             scenario_mobile scenario_derived); reflexivity.
  - destruct (derived_fields_as_computed parse_decimal sum_in_order sum_in_order
                (loaded decimal_repayments scenario_writeoffs) 1%positive 2%positive
                decimal_repayments scenario_writeoffs
                [PyStr (text "0712345678"); PyStr (text "255712345678")]
                [PyStr (text "0.1"); PyStr (text "0.2")]
                scenario_mobile scenario_derived)
      as (σ' & table & matches & amounts & Hrun & Hshown & Hm & Ha & Hrows);
      [reflexivity.. |].
    destruct (Hrows 0%nat (PyStr (text "+255712345678")) eq_refl) as (H1 & H2 & _).
    eexists σ', table, matches, amounts, _.
    split; [exact Hrun|]. split; [exact Hshown|]. split; [exact Hm|].
    split; [exact Ha|]. split; [exact H1|]. split; [exact H2|].
    split; evaluated.
Defined.

Lemma nonzero_amount_has_match_witness :
  exists σ' table matches amounts,
    run_main scenario_state = (Return tt, σ') /\
    displayed (screen σ') = displayed (screen scenario_state) ++ [table] /\
    getitem "Repayment Phone Matches" table = Some matches /\
    getitem "amount repayed" table = Some amounts /\
    length matches = length scenario_mobile /\
    length amounts = length scenario_mobile /\
    forall i,
      (i < length scenario_mobile)%nat ->
      exists match_count amount_repaid,
        matches !! i = Some (PyInt match_count) /\
        amounts !! i = Some (PyFloat amount_repaid) /\
        (float_is_zero amount_repaid = false -> 1 <= match_count) /\
        (amount_repaid <> float_zero -> 1 <= match_count) /\
        (match_count = 0 -> amount_repaid = float_zero).
Proof.
  apply (nonzero_amount_has_match parse_decimal sum_in_order sum_in_order
           scenario_state 1%positive 2%positive
           scenario_repayments scenario_writeoffs scenario_phones scenario_repaid
           scenario_mobile scenario_derived); reflexivity.
Defined.

Lemma augmented_table_frame_witness :
  exists σ' (counts : list Z) (amounts : list float) new,
    run_main scenario_state = (Return tt, σ') /\
    displayed (screen σ') =
      displayed (screen scenario_state) ++
      [ scenario_writeoffs ++
        [ ("Repayment Phone Matches"%string, map PyInt counts);
          ("amount repayed"%string, map PyFloat amounts) ] ] /\
    length counts = length scenario_mobile /\
    length amounts = length scenario_mobile /\
    heap scenario_state !! new = None /\
    heap σ' !! 2%positive = Some scenario_writeoffs /\
    forall l, l <> new -> heap σ' !! l = heap scenario_state !! l.
Proof.
  apply (augmented_table_frame parse_decimal sum_in_order sum_in_order
           scenario_state 1%positive 2%positive
           scenario_repayments scenario_writeoffs scenario_phones scenario_repaid
           scenario_mobile scenario_derived); reflexivity.
Defined.

(** * Further properties of the normaliser (app.py, lines 13-24) *)

Lemma slice_last_nine_short {A} (l : list A) :
  (length l <= 9)%nat -> slice_from (-9) l = l.
Proof.
  intros H. rewrite slice_last_nine.
  destruct (Nat.ltb_spec (length l) 9) as [_|Hge]; [reflexivity|].
  replace (length l - 9)%nat with 0%nat by lia. reflexivity.
Qed.

Lemma extract_text s :
  extract_last_nine_digits (PyStr s) = slice_from (-9) (re_sub_nondigits s).
Proof. reflexivity. Qed.

(** X1: normalising is idempotent: a key fed back as text is its own key. *)
Theorem extract_idempotent value :
  extract_last_nine_digits (PyStr (extract_last_nine_digits value))
  = extract_last_nine_digits value.
Proof.
  rewrite extract_text. unfold re_sub_nondigits.
  assert (Hd : forallb Py_UNICODE_ISDECIMAL (extract_last_nine_digits value) = true).
  { unfold extract_last_nine_digits. destruct (isna value); [reflexivity|].
    apply forallb_slice, forallb_filter_same. }
  assert (Hl : (length (extract_last_nine_digits value) <= 9)%nat).
  { unfold extract_last_nine_digits. destruct (isna value); [simpl; lia|].
    apply slice_last_nine_length. }
  rewrite (filter_forallb_id _ _ Hd). now apply slice_last_nine_short.
Qed.

(** X2: a character that is not a decimal digit (a space, a dash, a plus
    sign, a letter) can be put anywhere into a text without changing its
    key. *)
Theorem extract_ignores_separators before c after :
  Py_UNICODE_ISDECIMAL c = false ->
  extract_last_nine_digits (PyStr (before ++ c :: after))
  = extract_last_nine_digits (PyStr (before ++ after)).
Proof.
  intros Hc. rewrite !extract_text. unfold re_sub_nondigits.
  rewrite !List.filter_app. cbn [List.filter]. now rewrite Hc.
Qed.

Lemma extract_ignores_separators_witness :
  extract_last_nine_digits (PyStr (text "0712" ++ 45%N :: text "345678"))
  = extract_last_nine_digits (PyStr (text "0712" ++ text "345678")).
Proof. apply extract_ignores_separators. reflexivity. Defined.

(** X3: once a text holds nine digits, nothing written in front of it (a
    country code, a trunk zero) changes the key. *)
Theorem extract_ignores_prefix prefix s :
  (9 <= length (re_sub_nondigits s))%nat ->
  extract_last_nine_digits (PyStr (prefix ++ s))
  = extract_last_nine_digits (PyStr s).
Proof.
  intros H. rewrite !extract_text, !slice_last_nine. unfold re_sub_nondigits in *.
  rewrite List.filter_app, length_app.
  set (a := List.filter Py_UNICODE_ISDECIMAL prefix) in *.
  set (b := List.filter Py_UNICODE_ISDECIMAL s) in *.
  destruct (Nat.ltb_spec (length a + length b) 9) as [Hlt|_]; [lia|].
  destruct (Nat.ltb_spec (length b) 9) as [Hlt|_]; [lia|].
  replace (length a + length b - 9)%nat with (length a + (length b - 9))%nat by lia.
  apply drop_app_add.
Qed.

Lemma extract_ignores_prefix_witness :
  extract_last_nine_digits (PyStr (text "+255 " ++ text "712 345 678"))
  = extract_last_nine_digits (PyStr (text "712 345 678")).
Proof. apply extract_ignores_prefix. vm_compute. lia. Defined.

(** X4: the key has as many characters as the value's text has decimal
    digits, nine at most, and none for a missing value; so it is empty
    exactly when the value is missing or its text has no decimal digit. *)
Theorem extract_length value :
  length (extract_last_nine_digits value)
  = (if isna value then 0
     else Nat.min 9 (length (re_sub_nondigits (str value))))%nat /\
  (extract_last_nine_digits value = [] <->
   isna value = true \/ re_sub_nondigits (str value) = []).
Proof.
  assert (Hlen : length (extract_last_nine_digits value)
          = (if isna value then 0
             else Nat.min 9 (length (re_sub_nondigits (str value))))%nat).
  { unfold extract_last_nine_digits. destruct (isna value); [reflexivity|].
    cbv zeta. rewrite slice_last_nine.
    destruct (Nat.ltb_spec (length (re_sub_nondigits (str value))) 9);
      [|rewrite length_drop]; lia. }
  split; [exact Hlen|]. split.
  - intros E. rewrite E in Hlen. destruct (isna value); [now left|right].
    destruct (re_sub_nondigits (str value)); [reflexivity|].
    cbn [length] in Hlen. lia.
  - intros [E|E]; apply length_zero_iff_nil; rewrite Hlen.
    + now rewrite E.
    + rewrite E. now destruct (isna value).
Qed.

Lemma extract_length_witness :
  extract_last_nine_digits (PyStr (text "N/A")) = [].
Proof.
  apply (proj2 (extract_length (PyStr (text "N/A")))). right. reflexivity.
Defined.

(** * Further properties of the aggregates (app.py, lines 35-61) *)

Lemma scan_count_elem_of key (keys : list (list N)) :
  scan_count key keys <> 0%nat <-> key ∈ keys.
Proof.
  unfold scan_count. induction keys as [|k keys IH]; cbn [List.filter].
  - split; [intros H; now destruct H | intros H; inversion H].
  - rewrite elem_of_cons. destruct (decide (k = key)) as [->|Hne].
    + rewrite bool_decide_eq_true_2 by reflexivity. cbn [length].
      split; [now left | lia].
    + rewrite bool_decide_eq_false_2 by exact Hne. rewrite IH.
      split; [now right | intros [E|E]; [congruence | exact E]].
Qed.

Lemma sum_total_insert_fresh (m : gmap (list N) Z) k v :
  m !! k = None -> sum_total (<[k := v]> m) = v + sum_total m.
Proof.
  intros H. unfold sum_total.
  apply (map_fold_insert_L (fun _ v acc => v + acc)); [|exact H].
  intros. lia.
Qed.

Lemma wrap_add_r d a b : wrap d (a + wrap d b) = wrap d (a + b).
Proof. now rewrite (Z.add_comm a), wrap_add_l, Z.add_comm. Qed.

Lemma sum_total_add_int_row (d : int_dtype) (m : gmap (list N) Z) k v :
  wrap d (sum_total (add_int_row d m (k, v))) = wrap d (v + sum_total m).
Proof.
  unfold add_int_row. cbn [fst snd].
  destruct (m !! k) as [c|] eqn:E; cbn [default from_option id].
  - rewrite <- (insert_delete_eq m k (wrap d (c + v))).
    rewrite sum_total_insert_fresh by apply lookup_delete_eq.
    rewrite <- (insert_delete_id m k c E) at 2.
    rewrite sum_total_insert_fresh by apply lookup_delete_eq.
    rewrite wrap_add_l. f_equal. lia.
  - rewrite sum_total_insert_fresh by exact E.
    now rewrite wrap_add_l.
Qed.

Lemma sum_total_fold (d : int_dtype) (rows : list (list N * Z)) (m : gmap (list N) Z) :
  wrap d (sum_total (fold_left (add_int_row d) rows m))
  = wrap d (Zsum (map snd rows) + sum_total m).
Proof.
  revert m. induction rows as [|[k v] rows IH]; intros m; cbn [fold_left map snd].
  - reflexivity.
  - rewrite IH. rewrite <- wrap_add_r, sum_total_add_int_row, wrap_add_r.
    f_equal. unfold Zsum. cbn [fold_right]. lia.
Qed.

Lemma add_int_row_fits (d : int_dtype) (m : gmap (list N) Z) kv :
  map_Forall (fun _ v => fits d v = true) m ->
  map_Forall (fun _ v => fits d v = true) (add_int_row d m kv).
Proof.
  intros H. unfold add_int_row. apply map_Forall_insert_2; [apply fits_wrap | exact H].
Qed.

Lemma int_fold_fits (d : int_dtype) (rows : list (list N * Z)) (m : gmap (list N) Z) :
  map_Forall (fun _ v => fits d v = true) m ->
  map_Forall (fun _ v => fits d v = true) (fold_left (add_int_row d) rows m).
Proof.
  revert m. induction rows as [|kv rows IH]; intros m H; cbn [fold_left]; [exact H|].
  apply IH, add_int_row_fits, H.
Qed.

Lemma zip_values {A B} (l : list A) (vals : list B) :
  length l = length vals -> map snd (zip l vals) = vals.
Proof.
  revert vals. induction l as [|x l IH]; intros [|v vals] H; simpl in *;
    try discriminate; [reflexivity|].
  f_equal. apply IH. lia.
Qed.


Lemma groupby_sum_keys float_group_sum (keys : list (list N)) column key :
  length keys = column_length column ->
  key ∈ sum_table_keys (groupby_sum float_group_sum keys column) <-> key ∈ keys.
Proof.
  intros Hlen. rewrite <- scan_count_elem_of.
  destruct column as [d values|values]; cbn [groupby_sum sum_table_keys column_length] in *.
  - rewrite elem_of_dom, int_fold_lookup, lookup_empty, zip_keys by exact Hlen.
    destruct (decide _) as [E|E].
    + split; [intros [? ?]; discriminate | contradiction].
    + split; [intros _; exact E | eauto].
  - rewrite elem_of_dom, lookup_fmap, group_fold_lookup, lookup_empty, zip_keys
      by exact Hlen.
    destruct (decide _) as [E|E]; cbn [fmap option_fmap option_map].
    + split; [intros [? ?]; discriminate | contradiction].
    + split; [intros _; exact E | eauto].
Qed.

Section Aggregates.

Variable parse_number : pystr -> option number.
Variable float_group_sum : list float -> float.
Variable float_sum : list float -> float.

(** X5: the two tables have the same keys, and a key is in them exactly
    when some repayment row normalises to it. *)
Theorem aggregates_share_keys (repayments : DataFrame) phones repaid σ :
  well_formed repayments = true ->
  getitem "Phone Number" repayments = Some phones ->
  getitem "Total Repaid:" repayments = Some repaid ->
  exists counts sums σ',
    compute_phone_aggregates parse_number float_group_sum repayments σ
      = (Return (counts, sums), σ') /\
    dom counts = sum_table_keys sums /\
    forall key, key ∈ dom counts <-> key ∈ map extract_last_nine_digits phones.
Proof.
  intros Hwf Hp Ha.
  eexists _, _, _.
  split; [apply (compute_phone_aggregates_run _ _ _ _ _ _ Hp Ha)|].
  assert (Hlen : length (map extract_last_nine_digits phones)
                 = column_length (fillna float_zero (to_numeric parse_number repaid))).
  { rewrite fillna_length, to_numeric_length, length_map.
    rewrite (well_formed_getitem _ _ _ Hwf Hp).
    now rewrite (well_formed_getitem _ _ _ Hwf Ha). }
  assert (Hc : forall key,
            key ∈ dom (value_counts (map extract_last_nine_digits phones))
            <-> key ∈ map extract_last_nine_digits phones).
  { intros key. rewrite elem_of_dom, value_counts_lookup, <- scan_count_elem_of.
    destruct (decide _) as [E|E].
    - split; [intros [? ?]; discriminate | contradiction].
    - split; [intros _; exact E | eauto]. }
  split; [|exact Hc].
  apply set_eq. intros key. rewrite Hc.
  symmetry. now apply groupby_sum_keys.
Qed.

(** X6: no amount is lost or counted twice on the way into the sum table
    of a column of whole numbers: the table is one of integers of the
    column's type, and its values add up, in the arithmetic of that type,
    to the sum of the column. *)
Theorem sum_table_conserves_amounts (repayments : DataFrame) phones repaid d values σ :
  well_formed repayments = true ->
  getitem "Phone Number" repayments = Some phones ->
  getitem "Total Repaid:" repayments = Some repaid ->
  whole_amounts parse_number repaid = Some (d, values) ->
  exists counts sums σ',
    compute_phone_aggregates parse_number float_group_sum repayments σ
      = (Return (counts, IntSums d sums), σ') /\
    map_Forall (fun _ v => fits d v = true) sums /\
    wrap d (sum_total sums) = wrap d (Zsum values) /\
    series_sum float_sum (fillna float_zero (to_numeric parse_number repaid))
      = NInt (wrap d (sum_total sums)).
Proof.
  intros Hwf Hp Ha Hwhole.
  eexists _, _, _. split.
  { rewrite (compute_phone_aggregates_run _ _ _ _ _ _ Hp Ha).
    rewrite coerced_column, Hwhole. reflexivity. }
  assert (E : wrap d (sum_total (fold_left (add_int_row d)
                 (zip (map extract_last_nine_digits phones) values) ∅))
              = wrap d (Zsum values)).
  { rewrite sum_total_fold. unfold sum_total at 1. rewrite map_fold_empty.
    rewrite zip_values, Z.add_0_r; [reflexivity|].
    rewrite (whole_amounts_length _ _ _ _ Hwhole), length_map.
    rewrite (well_formed_getitem _ _ _ Hwf Hp).
    now rewrite (well_formed_getitem _ _ _ Hwf Ha). }
  split; [apply int_fold_fits, map_Forall_empty|]. split; [exact E|].
  rewrite coerced_column, Hwhole. cbn [series_sum]. now rewrite E.
Qed.

End Aggregates.

Lemma aggregates_share_keys_witness :
  exists counts sums σ',
    compute_phone_aggregates parse_decimal sum_in_order scenario_repayments scenario_state
      = (Return (counts, sums), σ') /\
    dom counts = sum_table_keys sums /\
    forall key, key ∈ dom counts <-> key ∈ map extract_last_nine_digits scenario_phones.
Proof.
  apply (aggregates_share_keys parse_decimal sum_in_order scenario_repayments
           scenario_phones scenario_repaid scenario_state); reflexivity.
Defined.

Lemma sum_table_conserves_amounts_witness :
  exists counts sums σ',
    compute_phone_aggregates parse_decimal sum_in_order scenario_repayments scenario_state
      = (Return (counts, IntSums int64 sums), σ') /\
    map_Forall (fun _ v => fits int64 v = true) sums /\
    wrap int64 (sum_total sums) = wrap int64 (Zsum [100; 50]) /\
    series_sum sum_in_order (fillna float_zero (to_numeric parse_decimal scenario_repaid))
      = NInt (wrap int64 (sum_total sums)).
Proof.
  apply (sum_table_conserves_amounts parse_decimal sum_in_order sum_in_order
           scenario_repayments scenario_phones scenario_repaid int64 [100; 50]
           scenario_state); reflexivity.
Defined.

Lemma scan_count_perm key (keys keys' : list (list N)) :
  keys ≡ₚ keys' -> scan_count key keys = scan_count key keys'.
Proof.
  unfold scan_count. induction 1 as [|k l l' _ IH|k1 k2 l|l1 l2 l3 _ IH1 _ IH2];
    cbn [List.filter].
  - reflexivity.
  - destruct (bool_decide (k = key)); cbn [length]; lia.
  - destruct (bool_decide (k1 = key)), (bool_decide (k2 = key)); reflexivity.
  - lia.
Qed.

Lemma key_values_perm key (rows rows' : list (list N * Z)) :
  rows ≡ₚ rows' -> Zsum (key_values key rows) = Zsum (key_values key rows').
Proof.
  induction 1 as [|[k v] l l' _ IH|[k1 v1] [k2 v2] l|l1 l2 l3 _ IH1 _ IH2].
  - reflexivity.
  - rewrite !key_values_cons. destruct (decide (k = key)); [|exact IH].
    unfold Zsum in *. cbn [fold_right]. now rewrite IH.
  - rewrite !key_values_cons.
    destruct (decide (k1 = key)), (decide (k2 = key)); try reflexivity.
    unfold Zsum. cbn [fold_right]. lia.
  - now rewrite IH1.
Qed.

Lemma int_fold_perm (d : int_dtype) (rows rows' : list (list N * Z)) :
  rows ≡ₚ rows' ->
  fold_left (add_int_row d) rows ∅ = fold_left (add_int_row d) rows' ∅.
Proof.
  intros Hperm. apply map_eq. intros key. rewrite !int_fold_lookup.
  rewrite (scan_count_perm key _ _ (Permutation_map fst Hperm)).
  now rewrite (key_values_perm key _ _ Hperm).
Qed.

Lemma zip_map_both {A B C D} (f : A -> C) (g : B -> D) (l : list A) (k : list B) :
  zip (map f l) (map g k) = map (fun p => (f p.1, g p.2)) (zip l k).
Proof.
  revert k. induction l as [|x l IH]; intros [|y k]; simpl; auto.
  now rewrite IH.
Qed.


(** The whole number in a cell, 0 where there is none. *)
Lemma whole_numbers_Forall cells :
  Forall (fun c => exists z, c = Some (NInt z)) cells ->
  whole_numbers cells
  = Some (map (fun c => match c with Some (NInt z) => z | _ => 0 end) cells).
Proof.
  induction 1 as [|c cells [z ->] _ IH]; [reflexivity|].
  cbn [whole_numbers map]. now rewrite IH.
Qed.

Lemma whole_numbers_inv cells values :
  whole_numbers cells = Some values ->
  Forall (fun c => exists z, c = Some (NInt z)) cells /\
  values = map (fun c => match c with Some (NInt z) => z | _ => 0 end) cells.
Proof.
  intros H. rewrite (whole_numbers_Some _ _ H). split.
  - apply Forall_forall. intros c Hc. apply list_elem_of_In, in_map_iff in Hc.
    destruct Hc as (z & <- & _). eauto.
  - rewrite map_map. symmetry. apply map_id.
Qed.

Lemma forallb_perm {A} (p : A -> bool) (l l' : list A) :
  l ≡ₚ l' -> forallb p l = forallb p l'.
Proof.
  induction 1 as [|x l l' _ IH|x y l|l1 l2 l3 _ IH1 _ IH2]; cbn [forallb].
  - reflexivity.
  - now rewrite IH.
  - destruct (p x), (p y); reflexivity.
  - now rewrite IH1.
Qed.

Section RowOrder.

Variable parse_number : pystr -> option number.
Variable float_group_sum : list float -> float.

(** X7: the order of the repayment rows does not matter to the count
    table, nor to the sum table when the amounts are whole numbers of one
    integer type: two frames with the same rows in another order give the
    same count table, and for such amounts the same sum table. *)
Theorem aggregates_ignore_row_order (r r' : DataFrame)
    phones repaid phones' repaid' σ :
  well_formed r = true ->
  well_formed r' = true ->
  getitem "Phone Number" r = Some phones ->
  getitem "Total Repaid:" r = Some repaid ->
  getitem "Phone Number" r' = Some phones' ->
  getitem "Total Repaid:" r' = Some repaid' ->
  zip phones repaid ≡ₚ zip phones' repaid' ->
  exists counts sums sums' σ1 σ2,
    compute_phone_aggregates parse_number float_group_sum r σ
      = (Return (counts, sums), σ1) /\
    compute_phone_aggregates parse_number float_group_sum r' σ
      = (Return (counts, sums'), σ2) /\
    (is_Some (whole_amounts parse_number repaid) -> sums = sums').
Proof.
  intros Hwf Hwf' Hp Ha Hp' Ha' Hperm.
  set (f := extract_last_nine_digits).
  set (g := fun v => match amount_value parse_number v with
                     | Some (NInt z) => z
                     | _ => 0
                     end).
  assert (Hl : length phones = length repaid).
  { rewrite (well_formed_getitem _ _ _ Hwf Hp).
    now rewrite (well_formed_getitem _ _ _ Hwf Ha). }
  assert (Hl' : length phones' = length repaid').
  { rewrite (well_formed_getitem _ _ _ Hwf' Hp').
    now rewrite (well_formed_getitem _ _ _ Hwf' Ha'). }
  assert (Hrows : zip (map f phones) (map g repaid)
                  ≡ₚ zip (map f phones') (map g repaid')).
  { rewrite !zip_map_both. now apply Permutation_map. }
  assert (Hkeys : map f phones ≡ₚ map f phones').
  { apply (Permutation_map fst) in Hrows.
    rewrite !zip_keys in Hrows by (rewrite !length_map; assumption).
    exact Hrows. }
  assert (Hcells : repaid ≡ₚ repaid').
  { apply (Permutation_map snd) in Hperm.
    now rewrite !zip_values in Hperm by assumption. }
  assert (Hcounts : value_counts (map f phones) = value_counts (map f phones')).
  { apply map_eq. intros key. rewrite !value_counts_lookup.
    now rewrite (scan_count_perm key _ _ Hkeys). }
  eexists _, _, _, _, _.
  split; [apply (compute_phone_aggregates_run _ _ _ _ _ _ Hp Ha)|].
  split.
  { rewrite (compute_phone_aggregates_run _ _ _ _ _ _ Hp' Ha').
    fold f. rewrite <- Hcounts. reflexivity. }
  intros [[d values] Hwhole]. fold f. rewrite !coerced_column, Hwhole.
  unfold whole_amounts in Hwhole.
  destruct (whole_numbers (map (amount_value parse_number) repaid))
    as [vs|] eqn:E; [|discriminate].
  apply whole_numbers_inv in E as [Hall ->]. rewrite map_map in Hwhole.
  fold g in Hwhole.
  assert (Hall' : Forall (fun c => exists z, c = Some (NInt z))
                    (map (amount_value parse_number) repaid')).
  { exact (Permutation_Forall (Permutation_map _ Hcells) Hall). }
  assert (E' : whole_amounts parse_number repaid'
               = Some (d, map g repaid')).
  { unfold whole_amounts. rewrite (whole_numbers_Forall _ Hall'), map_map.
    fold g. rewrite <- !(forallb_perm _ _ _ (Permutation_map g Hcells)).
    destruct (forallb (fits int64) (map g repaid));
      [now injection Hwhole as <- _|].
    destruct (forallb (fits uint64) (map g repaid));
      [now injection Hwhole as <- _ | discriminate]. }
  rewrite E'.
  assert (values = map g repaid) as ->.
  { destruct (forallb (fits int64) (map g repaid));
      [now injection Hwhole as _ <-|].
    destruct (forallb (fits uint64) (map g repaid));
      [now injection Hwhole as _ <- | discriminate]. }
  cbn [groupby_sum]. f_equal. now apply int_fold_perm.
Qed.

End RowOrder.

Lemma aggregates_ignore_row_order_witness :
  exists counts sums sums' σ1 σ2,
    compute_phone_aggregates parse_decimal sum_in_order scenario_repayments scenario_state
      = (Return (counts, sums), σ1) /\
    compute_phone_aggregates parse_decimal sum_in_order
      scenario_repayments_reversed scenario_state
      = (Return (counts, sums'), σ2) /\
    sums = sums'.
Proof.
  destruct (aggregates_ignore_row_order parse_decimal sum_in_order
              scenario_repayments scenario_repayments_reversed
              scenario_phones scenario_repaid
              (rev scenario_phones) (rev scenario_repaid) scenario_state)
    as (counts & sums & sums' & σ1 & σ2 & H1 & H2 & H3);
    [reflexivity | reflexivity | reflexivity | reflexivity | reflexivity
    | reflexivity | apply perm_swap |].
  exists counts, sums, sums', σ1, σ2. split; [exact H1|]. split; [exact H2|].
  apply H3. vm_compute. eauto.
Defined.

Lemma getitem_None_contains name (df : DataFrame) :
  getitem name df = None -> contains name (columns df) = false.
Proof.
  intros H. destruct (contains name (columns df)) eqn:E; [|reflexivity].
  apply contains_getitem in E as [s E]. congruence.
Qed.

Lemma getitem_elem_of name (df : DataFrame) s :
  getitem name df = Some s -> name ∈ columns df.
Proof.
  unfold columns. induction df as [|[c s0] df IH]; simpl; [discriminate|].
  destruct (String.eqb c name) eqn:E.
  - apply String.eqb_eq in E as ->. intros _. apply elem_of_cons. now left.
  - intros H. apply elem_of_cons. right. auto.
Qed.

Lemma getitem_perm name (r r' : DataFrame) :
  NoDup (columns r) -> r ≡ₚ r' -> getitem name r = getitem name r'.
Proof.
  intros Hnd Hperm. revert Hnd.
  induction Hperm as [|[c s] l l' _ IH|[c1 s1] [c2 s2] l|l1 l2 l3 H12 IH1 _ IH2];
    intros Hnd.
  - reflexivity.
  - cbn [getitem]. destruct (String.eqb c name); [reflexivity|].
    apply IH. unfold columns in Hnd. cbn [map fst] in Hnd.
    now apply NoDup_cons in Hnd as [_ Hnd].
  - cbn [getitem].
    destruct (String.eqb c1 name) eqn:E1, (String.eqb c2 name) eqn:E2;
      try reflexivity.
    apply String.eqb_eq in E1 as ->. apply String.eqb_eq in E2 as ->.
    unfold columns in Hnd. cbn [map fst] in Hnd.
    apply NoDup_cons in Hnd as [Hin _].
    exfalso. apply Hin. apply elem_of_cons. now left.
  - rewrite IH1 by exact Hnd. apply IH2.
    unfold columns in *. now rewrite <- (Permutation_map fst H12).
Qed.

Section ColumnOrder.

Variable parse_number : pystr -> option number.
Variable float_group_sum : list float -> float.
Variable float_sum : list float -> float.


Lemma compute_phone_aggregates_outcome (r : DataFrame) σ :
  (compute_phone_aggregates parse_number float_group_sum r σ).1 =
  match getitem "Phone Number" r, getitem "Total Repaid:" r with
  | Some phones, Some repaid =>
      Return (value_counts (map extract_last_nine_digits phones),
              groupby_sum float_group_sum (map extract_last_nine_digits phones)
                (fillna float_zero (to_numeric parse_number repaid)))
  | None, _ =>
      Raise (KeyError "Expected 'Phone Number' column (column S) in Repayments.xlsx.")
  | Some _, None =>
      Raise (KeyError "Expected 'Total Repaid:' column in Repayments.xlsx.")
  end.
Proof.
  destruct (getitem "Phone Number" r) as [phones|] eqn:Hp.
  - destruct (getitem "Total Repaid:" r) as [repaid|] eqn:Ha.
    + now rewrite (compute_phone_aggregates_run _ _ _ _ _ _ Hp Ha).
    + unfold compute_phone_aggregates.
      assert (Hcp : contains "Phone Number" (columns r) = true)
        by (apply contains_getitem; eauto).
      now rewrite Hcp, (getitem_None_contains _ _ Ha).
  - unfold compute_phone_aggregates.
    now rewrite (getitem_None_contains _ _ Hp).
Qed.

(** X8: where the columns stand does not matter: a frame with the same
    uniquely named columns in another order gives the same outcome, the
    same two tables or the same exception; only the position warning can
    differ. *)
Theorem aggregates_ignore_column_order (r r' : DataFrame) σ :
  NoDup (columns r) ->
  r ≡ₚ r' ->
  (compute_phone_aggregates parse_number float_group_sum r σ).1
  = (compute_phone_aggregates parse_number float_group_sum r' σ).1 /\
  heap (compute_phone_aggregates parse_number float_group_sum r σ).2 = heap σ /\
  heap (compute_phone_aggregates parse_number float_group_sum r' σ).2 = heap σ /\
  errors (screen (compute_phone_aggregates parse_number float_group_sum r' σ).2)
  = errors (screen σ).
Proof.
  intros Hnd Hperm. split.
  { rewrite !compute_phone_aggregates_outcome.
    now rewrite !(getitem_perm _ r r' Hnd Hperm). }
  assert (Hst : forall d : DataFrame,
            heap (compute_phone_aggregates parse_number float_group_sum d σ).2 = heap σ /\
            errors (screen (compute_phone_aggregates parse_number float_group_sum d σ).2)
            = errors (screen σ)).
  { intros d. destruct (getitem "Phone Number" d) as [phones|] eqn:Hp.
    - destruct (getitem "Total Repaid:" d) as [repaid|] eqn:Ha.
      + rewrite (compute_phone_aggregates_run _ _ _ _ _ _ Hp Ha). cbn [snd heap screen].
        split; [reflexivity|]. unfold errors. rewrite omap_app.
        fold (errors (phone_note (columns d))). unfold phone_note.
        rewrite (proj1 (position_note_warnings _ _ _ _)). apply app_nil_r.
      + unfold compute_phone_aggregates.
        assert (Hcp : contains "Phone Number" (columns d) = true)
          by (apply contains_getitem; eauto).
        rewrite Hcp, (getitem_None_contains _ _ Ha). split; reflexivity.
    - unfold compute_phone_aggregates.
      rewrite (getitem_None_contains _ _ Hp). split; reflexivity. }
  split; [apply Hst|]. split; apply Hst.
Qed.

End ColumnOrder.

Lemma aggregates_ignore_column_order_witness :
  (compute_phone_aggregates parse_decimal sum_in_order scenario_repayments scenario_state).1
  = (compute_phone_aggregates parse_decimal sum_in_order scenario_repayments_swapped scenario_state).1.
Proof.
  apply (aggregates_ignore_column_order parse_decimal sum_in_order
           scenario_repayments scenario_repayments_swapped scenario_state).
  - unfold columns. cbn [map fst scenario_repayments].
    apply NoDup_cons. split; [|apply NoDup_singleton].
    intros H. apply list_elem_of_singleton in H. discriminate.
  - apply perm_swap.
Defined.

(** * Further properties of [main] (app.py, lines 77-132) *)

Lemma position_note_no_metric label name expected note cols :
  metric label (position_note name expected note cols) = None.
Proof.
  unfold position_note.
  destruct (index name cols); [destruct (negb _)|]; reflexivity.
Qed.

Lemma metric_app_None label calls shown :
  metric label shown = None -> metric label (calls ++ shown) = metric label calls.
Proof.
  unfold metric. intros H. now rewrite omap_app, last_app, H.
Qed.

Lemma errors_app calls calls' :
  errors (calls ++ calls') = errors calls ++ errors calls'.
Proof. apply omap_app. Qed.

Lemma augmented_other_columns counts sums mobile (w : DataFrame) name :
  name <> "last9_mobile"%string ->
  name <> "Repayment Phone Matches"%string ->
  name <> "amount repayed"%string ->
  getitem name (augmented counts sums mobile w) = getitem name w.
Proof.
  intros H1 H2 H3. unfold augmented.
  rewrite getitem_drop_column_ne by (apply String.eqb_neq; congruence).
  rewrite !getitem_setitem_ne by (apply String.eqb_neq; congruence).
  reflexivity.
Qed.

Section MainProperties.

Variable parse_number : pystr -> option number.
Variable float_group_sum : list float -> float.
Variable float_sum : list float -> float.

(** X9: when the write-offs have no "Total Writtenoff Derived" column (the
    other named columns being there), [main] ends after one [st.error]
    naming that column and its file; no table and no figure is shown, and
    both loaded frames are as they were. *)
Theorem missing_total_column_is_fatal σ rl wl (r w : DataFrame) phones repaid mobile :
  heap σ !! rl = Some r ->
  heap σ !! wl = Some w ->
  getitem "Phone Number" r = Some phones ->
  getitem "Total Repaid:" r = Some repaid ->
  getitem "mobile" w = Some mobile ->
  getitem "Total Writtenoff Derived" w = None ->
  exists σ',
    main parse_number float_group_sum float_sum rl wl σ = (Return tt, σ') /\
    errors (screen σ') =
      errors (screen σ) ++
      ["Expected 'Total Writtenoff Derived' column in writeoffs.xlsx."%string] /\
    displayed (screen σ') = displayed (screen σ) /\
    (forall label, metric label (screen σ') = metric label (screen σ)) /\
    heap σ' !! rl = Some r /\
    heap σ' !! wl = Some w.
Proof.
  intros Hr Hw Hp Ha Hm Hd.
  pose proof (main_run parse_number float_group_sum float_sum σ rl wl r w phones repaid mobile
                Hr Hw Hp Ha Hm) as Hrun.
  cbv zeta in Hrun. rewrite Hd in Hrun.
  assert (Hnew : heap σ !! fresh (dom (heap σ)) = None)
    by (apply not_elem_of_dom, is_fresh).
  eexists. split; [exact Hrun|]. cbn [heap screen].
  split; [|split; [|split; [|split]]].
  - unfold errors. rewrite !omap_app. fold (errors (screen σ)).
    fold (errors (phone_note (columns r))) (errors (mobile_note (columns w))).
    unfold phone_note, mobile_note.
    now rewrite !(proj1 (position_note_warnings _ _ _ _)).
  - unfold displayed. rewrite !omap_app. fold (displayed (screen σ)).
    fold (displayed (phone_note (columns r))) (displayed (mobile_note (columns w))).
    unfold phone_note, mobile_note.
    rewrite !(proj2 (position_note_warnings _ _ _ _)). cbn [omap app].
    now rewrite app_nil_r.
  - intros label. rewrite !app_assoc.
    rewrite metric_app_None by reflexivity.
    rewrite metric_app_None by apply position_note_no_metric.
    now rewrite metric_app_None by apply position_note_no_metric.
  - rewrite lookup_insert_ne; [exact Hr|]. intros E. rewrite E in Hnew. congruence.
  - rewrite lookup_insert_ne; [exact Hw|]. intros E. rewrite E in Hnew. congruence.
Qed.

(** X10: whatever the two loaded frames hold, [main] returns normally: no
    exception escapes it. It changes no object that existed before the
    run, and it shows at most one [st.error]. *)
Theorem main_never_raises σ rl wl (r w : DataFrame) :
  heap σ !! rl = Some r ->
  heap σ !! wl = Some w ->
  exists σ',
    main parse_number float_group_sum float_sum rl wl σ = (Return tt, σ') /\
    (forall l (df : DataFrame), heap σ !! l = Some df -> heap σ' !! l = Some df) /\
    (length (errors (screen σ')) <= length (errors (screen σ)) + 1)%nat.
Proof.
  intros Hr Hw.
  assert (Hnotes : forall name expected note cols,
            errors (position_note name expected note cols) = [])
    by (intros; apply position_note_warnings).
  destruct (getitem "Phone Number" r) as [phones|] eqn:Hp;
    [destruct (getitem "Total Repaid:" r) as [repaid|] eqn:Ha;
      [destruct (getitem "mobile" w) as [mobile|] eqn:Hm|]|].
  - pose proof (main_run parse_number float_group_sum float_sum σ rl wl r w phones repaid mobile
                  Hr Hw Hp Ha Hm) as Hrun.
    cbv zeta in Hrun.
    assert (Hnew : heap σ !! fresh (dom (heap σ)) = None)
      by (apply not_elem_of_dom, is_fresh).
    assert (Hkeep : forall (t : DataFrame) l (df : DataFrame),
              heap σ !! l = Some df ->
              <[fresh (dom (heap σ)) := t]> (heap σ) !! l = Some df).
    { intros t l df Hl. rewrite lookup_insert_ne; [exact Hl|].
      intros E. rewrite E in Hnew. congruence. }
    destruct (getitem "Total Writtenoff Derived" w);
      [destruct (getitem "amount repayed" _)|];
      (eexists; split; [exact Hrun|]; cbn [heap screen];
       split; [apply Hkeep|];
       rewrite !errors_app; unfold phone_note, mobile_note;
       rewrite !Hnotes, !length_app; cbn; lia).
  - eexists. split.
    + apply (main_without_mobile parse_number float_group_sum float_sum σ rl wl r w); try assumption.
      * apply contains_getitem; eauto.
      * apply contains_getitem; eauto.
      * now apply getitem_None_contains.
    + cbn [heap screen]. split; [auto|].
      rewrite !errors_app. unfold phone_note.
      rewrite Hnotes, !length_app. cbn. lia.
  - eexists. split.
    + apply (main_without_repayments_column parse_number float_group_sum float_sum σ rl wl r Hr).
      right. now apply getitem_None_contains.
    + cbn [heap screen]. split; [auto|].
      rewrite errors_app, length_app. cbn. lia.
  - eexists. split.
    + apply (main_without_repayments_column parse_number float_group_sum float_sum σ rl wl r Hr).
      left. now apply getitem_None_contains.
    + cbn [heap screen]. split; [auto|].
      rewrite errors_app, length_app. cbn. lia.
Qed.

(** X11: whatever the names of the input columns, every column of the
    write-offs that is not called "last9_mobile", "Repayment Phone Matches"
    or "amount repayed" is in the table shown with the cells it had. *)
Theorem other_columns_untouched σ rl wl (r w : DataFrame)
    phones repaid mobile derived :
  heap σ !! rl = Some r ->
  heap σ !! wl = Some w ->
  getitem "Phone Number" r = Some phones ->
  getitem "Total Repaid:" r = Some repaid ->
  getitem "mobile" w = Some mobile ->
  getitem "Total Writtenoff Derived" w = Some derived ->
  exists σ' table,
    main parse_number float_group_sum float_sum rl wl σ = (Return tt, σ') /\
    displayed (screen σ') = displayed (screen σ) ++ [table] /\
    forall name,
      name <> "last9_mobile"%string ->
      name <> "Repayment Phone Matches"%string ->
      name <> "amount repayed"%string ->
      getitem name table = getitem name w.
Proof.
  intros Hr Hw Hp Ha Hm Hd.
  destruct (main_shows parse_number float_group_sum float_sum σ rl wl r w phones repaid mobile derived
              Hr Hw Hp Ha Hm Hd) as (σ' & Hrun & _ & Hshown & _).
  eexists σ', _. split; [exact Hrun|]. split; [exact Hshown|].
  intros name. apply augmented_other_columns.
Qed.

End MainProperties.

(** ** The shape of the table *)

Lemma setitem_lengths n name s (df : DataFrame) :
  forallb (fun c => Nat.eqb (length c.2) n) df = true ->
  length s = n ->
  forallb (fun c => Nat.eqb (length c.2) n) (setitem name s df) = true.
Proof.
  intros H Hs. induction df as [|[c s0] df IH]; cbn [setitem forallb snd].
  - rewrite Hs, Nat.eqb_refl. reflexivity.
  - cbn [forallb snd] in H. apply andb_true_iff in H as [H1 H2].
    destruct (String.eqb c name); cbn [forallb snd].
    + now rewrite Hs, Nat.eqb_refl, H2.
    + now rewrite H1, IH.
Qed.

Lemma drop_column_lengths n name (df : DataFrame) :
  forallb (fun c => Nat.eqb (length c.2) n) df = true ->
  forallb (fun c => Nat.eqb (length c.2) n) (drop_column name df) = true.
Proof.
  intros H. unfold drop_column. rewrite forallb_forall in *.
  intros c Hc. apply H. now apply List.filter_In in Hc as [Hc _].
Qed.

Lemma lengths_len n name (df : DataFrame) s :
  forallb (fun c => Nat.eqb (length c.2) n) df = true ->
  getitem name df = Some s ->
  len df = n.
Proof.
  destruct df as [|[c s0] df]; [discriminate|].
  cbn [forallb snd len]. intros H _.
  apply andb_true_iff in H as [H _]. now apply Nat.eqb_eq.
Qed.

Lemma augmented_shape counts sums mobile (w : DataFrame) :
  well_formed w = true ->
  getitem "mobile" w = Some mobile ->
  well_formed (augmented counts sums mobile w) = true /\
  len (augmented counts sums mobile w) = len w.
Proof.
  intros Hwf Hm.
  pose proof (well_formed_getitem _ _ _ Hwf Hm) as Hlen.
  assert (H : forallb (fun c => Nat.eqb (length c.2) (len w))
                (augmented counts sums mobile w) = true).
  { unfold augmented. apply drop_column_lengths.
    repeat (apply setitem_lengths; [|now rewrite !length_map]).
    exact Hwf. }
  assert (E : len (augmented counts sums mobile w) = len w)
    by (apply (lengths_len _ _ _ _ H (augmented_amounts counts sums mobile w))).
  split; [|exact E]. unfold well_formed. now rewrite E.
Qed.

Lemma contains_columns_app name (d1 d2 : DataFrame) :
  contains name (columns (d1 ++ d2))
  = contains name (columns d1) || contains name (columns d2).
Proof. unfold contains, columns. now rewrite map_app, existsb_app. Qed.

Lemma setitem_replace name s s0 (df rest : DataFrame) :
  contains name (columns df) = false ->
  setitem name s (df ++ (name, s0) :: rest) = df ++ (name, s) :: rest.
Proof.
  unfold contains, columns.
  induction df as [|[c s1] df IH]; cbn [app setitem map fst existsb].
  - now rewrite String.eqb_refl.
  - rewrite (String.eqb_sym name c). intros H.
    apply orb_false_iff in H as [-> H]. now rewrite IH.
Qed.

(** Augmenting a table that is already augmented changes nothing. *)
Lemma augmented_stable counts sums mobile (w : DataFrame) :
  contains "last9_mobile" (columns w) = false ->
  contains "Repayment Phone Matches" (columns w) = false ->
  contains "amount repayed" (columns w) = false ->
  augmented counts sums mobile (augmented counts sums mobile w)
  = augmented counts sums mobile w.
Proof.
  intros H1 H2 H3. rewrite !(augmented_appends _ _ _ _ H1 H2 H3).
  set (C := map (fun v => PyInt _) mobile).
  set (A := map (fun v => PyFloat _) mobile).
  unfold augmented.
  set (K := map (fun v => PyStr (extract_last_nine_digits v)) mobile).
  rewrite (setitem_fresh "last9_mobile")
    by (rewrite contains_columns_app, H1; reflexivity).
  rewrite <- app_assoc. cbn [app].
  rewrite (setitem_replace "Repayment Phone Matches") by exact H2.
  change (w ++ ("Repayment Phone Matches"%string, ?c) :: ?rest)
    with (w ++ [("Repayment Phone Matches"%string, c)] ++ rest).
  rewrite app_assoc.
  rewrite (setitem_replace "amount repayed")
    by (rewrite contains_columns_app, H3; reflexivity).
  unfold drop_column. rewrite !List.filter_app.
  fold (drop_column "last9_mobile" w). rewrite (drop_column_fresh _ _ H1).
  cbn [List.filter fst negb String.eqb Ascii.eqb Bool.eqb andb app].
  unfold C, A, K. rewrite !map_map, <- app_assoc. reflexivity.
Qed.

Section Shape.

Variable parse_number : pystr -> option number.
Variable float_group_sum : list float -> float.
Variable float_sum : list float -> float.

(** X12: for well-formed write-offs the table shown is well formed and has
    one row per write-off row, and the figure shown as "Number of
    write-offs" is that number of rows. *)
Theorem augmented_table_rows σ rl wl (r w : DataFrame) phones repaid mobile derived :
  heap σ !! rl = Some r ->
  heap σ !! wl = Some w ->
  well_formed w = true ->
  getitem "Phone Number" r = Some phones ->
  getitem "Total Repaid:" r = Some repaid ->
  getitem "mobile" w = Some mobile ->
  getitem "Total Writtenoff Derived" w = Some derived ->
  exists σ' table,
    main parse_number float_group_sum float_sum rl wl σ = (Return tt, σ') /\
    displayed (screen σ') = displayed (screen σ) ++ [table] /\
    well_formed table = true /\
    len table = len w /\
    metric "Number of write-offs" (screen σ')
      = Some (NInt (Z.of_nat (len w))).
Proof.
  intros Hr Hw Hwf Hp Ha Hm Hd.
  destruct (main_shows parse_number float_group_sum float_sum σ rl wl r w phones repaid mobile derived
              Hr Hw Hp Ha Hm Hd) as (σ' & Hrun & _ & Hshown & _).
  destruct (augmented_shape
              (value_counts (map extract_last_nine_digits phones))
              (groupby_sum float_group_sum (map extract_last_nine_digits phones)
                 (fillna float_zero (to_numeric parse_number repaid)))
              mobile w Hwf Hm) as [Hwf' Hlen].
  eexists σ', _. split; [exact Hrun|]. split; [exact Hshown|].
  split; [exact Hwf'|]. split; [exact Hlen|].
  pose proof (main_run parse_number float_group_sum float_sum σ rl wl r w phones repaid mobile
                Hr Hw Hp Ha Hm) as Hrun'.
  cbv zeta in Hrun'. rewrite Hd, augmented_amounts, Hlen in Hrun'.
  rewrite Hrun in Hrun'. injection Hrun' as ->. cbn [screen].
  rewrite !app_assoc. apply metric_shown. reflexivity.
Qed.

(** X13: the program can be run on its own output: when the write-offs
    had none of the three reserved column names, a run whose write-offs
    are the table shown by the first run (with the same repayments) shows
    that table again. *)
Theorem rerun_on_output_is_stable σ rl wl (r w : DataFrame)
    phones repaid mobile derived :
  heap σ !! rl = Some r ->
  heap σ !! wl = Some w ->
  getitem "Phone Number" r = Some phones ->
  getitem "Total Repaid:" r = Some repaid ->
  getitem "mobile" w = Some mobile ->
  getitem "Total Writtenoff Derived" w = Some derived ->
  contains "last9_mobile" (columns w) = false ->
  contains "Repayment Phone Matches" (columns w) = false ->
  contains "amount repayed" (columns w) = false ->
  exists σ' table,
    main parse_number float_group_sum float_sum rl wl σ = (Return tt, σ') /\
    displayed (screen σ') = displayed (screen σ) ++ [table] /\
    forall τ rl' wl',
      heap τ !! rl' = Some r ->
      heap τ !! wl' = Some table ->
      exists τ',
        main parse_number float_group_sum float_sum rl' wl' τ = (Return tt, τ') /\
        displayed (screen τ') = displayed (screen τ) ++ [table].
Proof.
  intros Hr Hw Hp Ha Hm Hd H1 H2 H3.
  destruct (main_shows parse_number float_group_sum float_sum σ rl wl r w phones repaid mobile derived
              Hr Hw Hp Ha Hm Hd) as (σ' & Hrun & _ & Hshown & _).
  eexists σ', _. split; [exact Hrun|]. split; [exact Hshown|].
  intros τ rl' wl' Hr' Hw'.
  destruct (main_shows parse_number float_group_sum float_sum τ rl' wl' r _ phones repaid mobile derived
              Hr' Hw' Hp Ha) as (τ' & Hrun' & _ & Hshown' & _).
  - now rewrite augmented_other_columns.
  - now rewrite augmented_other_columns.
  - exists τ'. split; [exact Hrun'|].
    now rewrite (augmented_stable _ _ _ _ H1 H2 H3) in Hshown'.
Qed.

End Shape.

(** * The start of the program (app.py, lines 27-32 and 69-75) *)

Section StartProperties.

Variable parse_number : pystr -> option number.
Variable float_group_sum : list float -> float.
Variable float_sum : list float -> float.
Variable path_exists : string -> bool.
Variable read_excel : string -> DataFrame.

(** X14: when a workbook is missing, the program shows one message that
    names every missing file, the repayments first, and stops: nothing is
    loaded. When both are there, they are loaded into two new, distinct
    objects, no object that existed is touched, and the run goes on as
    [main] on these two. *)
Theorem missing_files_are_reported σ :
  (path_exists REPAYMENTS_PATH = false \/ path_exists WRITEOFFS_PATH = false ->
   main_from_files parse_number float_group_sum float_sum path_exists read_excel σ =
   (Return tt,
    State (heap σ)
      (screen σ ++
       [st_error
          ("Missing required file(s): "
           ++ (if path_exists REPAYMENTS_PATH then "writeoffs.xlsx"
               else if path_exists WRITEOFFS_PATH then "Repayments.xlsx"
               else "Repayments.xlsx, writeoffs.xlsx")
           ++ ". Place them next to app.py and reload.")]))) /\
  (path_exists REPAYMENTS_PATH = true -> path_exists WRITEOFFS_PATH = true ->
   exists rl wl τ,
     main_from_files parse_number float_group_sum float_sum path_exists read_excel σ
       = main parse_number float_group_sum float_sum rl wl τ /\
     rl <> wl /\
     heap σ !! rl = None /\ heap σ !! wl = None /\
     heap τ !! rl = Some (read_excel REPAYMENTS_PATH) /\
     heap τ !! wl = Some (read_excel WRITEOFFS_PATH) /\
     screen τ = screen σ /\
     forall l (df : DataFrame), heap σ !! l = Some df -> heap τ !! l = Some df).
Proof.
  unfold main_from_files. cbn [List.filter]. split.
  - intros H.
    destruct (path_exists REPAYMENTS_PATH), (path_exists WRITEOFFS_PATH);
      cbn [negb]; try reflexivity.
    destruct H; discriminate.
  - intros -> ->. cbn [negb].
    set (rl := fresh (dom (heap σ))).
    set (h1 := <[rl := read_excel REPAYMENTS_PATH]> (heap σ)).
    set (wl := fresh (dom h1)).
    assert (Hrl : heap σ !! rl = None) by (apply not_elem_of_dom, is_fresh).
    assert (Hwl : h1 !! wl = None) by (apply not_elem_of_dom, is_fresh).
    assert (Hne : rl <> wl).
    { intros E. rewrite <- E in Hwl. unfold h1 in Hwl.
      rewrite lookup_insert_eq in Hwl. discriminate. }
    exists rl, wl, (State (<[wl := read_excel WRITEOFFS_PATH]> h1) (screen σ)).
    split; [reflexivity|]. split; [exact Hne|]. split; [exact Hrl|].
    split.
    { unfold h1 in Hwl. now rewrite lookup_insert_ne in Hwl. }
    cbn [heap screen]. split.
    { rewrite lookup_insert_ne by congruence. apply lookup_insert_eq. }
    split; [apply lookup_insert_eq|]. split; [reflexivity|].
    intros l df Hl.
    rewrite lookup_insert_ne by (intros <-; unfold h1 in Hwl;
      rewrite lookup_insert_ne in Hwl by exact Hne; congruence).
    unfold h1. rewrite lookup_insert_ne by congruence. exact Hl.
Qed.

End StartProperties.

Lemma missing_files_are_reported_witness :
  main_from_files parse_decimal sum_in_order sum_in_order (fun p => String.eqb p "Repayments.xlsx")
    (fun _ => scenario_repayments) scenario_state =
  (Return tt,
   State (heap scenario_state)
     (screen scenario_state ++
      [st_error
         "Missing required file(s): writeoffs.xlsx. Place them next to app.py and reload."])).
Proof.
  apply (proj1 (missing_files_are_reported parse_decimal sum_in_order sum_in_order
                  (fun p => String.eqb p "Repayments.xlsx")
                  (fun _ => scenario_repayments) scenario_state)).
  right. reflexivity.
Defined.

(** * The further statements at the worked examples *)

Lemma missing_total_column_is_fatal_witness :
  exists σ',
    run_main
      (loaded scenario_repayments untotalled_writeoffs) = (Return tt, σ') /\
    errors (screen σ') =
      errors (screen (loaded scenario_repayments untotalled_writeoffs)) ++
      ["Expected 'Total Writtenoff Derived' column in writeoffs.xlsx."%string] /\
    displayed (screen σ')
      = displayed (screen (loaded scenario_repayments untotalled_writeoffs)) /\
    (forall label,
       metric label (screen σ')
       = metric label (screen (loaded scenario_repayments untotalled_writeoffs))) /\
    heap σ' !! 1%positive = Some scenario_repayments /\
    heap σ' !! 2%positive = Some untotalled_writeoffs.
Proof.
  apply (missing_total_column_is_fatal parse_decimal sum_in_order sum_in_order
           (loaded scenario_repayments untotalled_writeoffs) 1%positive 2%positive
           scenario_repayments untotalled_writeoffs
           scenario_phones scenario_repaid scenario_mobile); reflexivity.
Defined.

Lemma main_never_raises_witness :
  exists σ',
    run_main scenario_state = (Return tt, σ') /\
    (forall l (df : DataFrame),
       heap scenario_state !! l = Some df -> heap σ' !! l = Some df) /\
    (length (errors (screen σ')) <= length (errors (screen scenario_state)) + 1)%nat.
Proof.
  apply (main_never_raises parse_decimal sum_in_order sum_in_order scenario_state 1%positive 2%positive
           scenario_repayments scenario_writeoffs); reflexivity.
Defined.

Lemma other_columns_untouched_witness :
  exists σ' table,
    run_main scenario_state = (Return tt, σ') /\
    displayed (screen σ') = displayed (screen scenario_state) ++ [table] /\
    forall name,
      name <> "last9_mobile"%string ->
      name <> "Repayment Phone Matches"%string ->
      name <> "amount repayed"%string ->
      getitem name table = getitem name scenario_writeoffs.
Proof.
  apply (other_columns_untouched parse_decimal sum_in_order sum_in_order scenario_state 1%positive 2%positive
           scenario_repayments scenario_writeoffs scenario_phones scenario_repaid
           scenario_mobile scenario_derived); reflexivity.
Defined.

Lemma augmented_table_rows_witness :
  exists σ' table,
    run_main scenario_state = (Return tt, σ') /\
    displayed (screen σ') = displayed (screen scenario_state) ++ [table] /\
    well_formed table = true /\
    len table = len scenario_writeoffs /\
    metric "Number of write-offs" (screen σ')
      = Some (NInt (Z.of_nat (len scenario_writeoffs))).
Proof.
  apply (augmented_table_rows parse_decimal sum_in_order sum_in_order scenario_state 1%positive 2%positive
           scenario_repayments scenario_writeoffs scenario_phones scenario_repaid
           scenario_mobile scenario_derived); reflexivity.
Defined.

Lemma rerun_on_output_is_stable_witness :
  exists σ' table,
    run_main scenario_state = (Return tt, σ') /\
    displayed (screen σ') = displayed (screen scenario_state) ++ [table] /\
    forall τ rl' wl',
      heap τ !! rl' = Some scenario_repayments ->
      heap τ !! wl' = Some table ->
      exists τ',
        main parse_decimal sum_in_order sum_in_order rl' wl' τ = (Return tt, τ') /\
        displayed (screen τ') = displayed (screen τ) ++ [table].
Proof.
  apply (rerun_on_output_is_stable parse_decimal sum_in_order sum_in_order scenario_state 1%positive 2%positive
           scenario_repayments scenario_writeoffs scenario_phones scenario_repaid
           scenario_mobile scenario_derived); reflexivity.
Defined.

(** * Position warnings and the run without repayments *)

Lemma warnings_app calls calls' :
  warnings (calls ++ calls') = warnings calls ++ warnings calls'.
Proof. apply omap_app. Qed.

Lemma getitem_index name (df : DataFrame) s :
  getitem name df = Some s -> is_Some (index name (columns df)).
Proof.
  unfold columns. induction df as [|[c s0] df IH]; cbn [getitem map fst index].
  - discriminate.
  - destruct (String.eqb c name); [eauto|].
    intros H. destruct (IH H) as [i ->]. eauto.
Qed.

Lemma position_note_warning name expected note (df : DataFrame) s :
  getitem name df = Some s ->
  warnings (position_note name expected note (columns df))
  = if decide (index name (columns df) = Some expected) then [] else [note].
Proof.
  intros H. destruct (getitem_index _ _ _ H) as [i Hi].
  unfold position_note. rewrite Hi.
  destruct (Nat.eqb_spec i expected) as [->|Hne]; cbn [negb].
  - now rewrite decide_True.
  - rewrite decide_False by congruence. reflexivity.
Qed.

Lemma sum_in_order_zeros n :
  sum_in_order (replicate n float_zero) = float_zero.
Proof.
  unfold sum_in_order. induction n as [|n IH]; [reflexivity|exact IH].
Qed.

Lemma nothing_repaid total_written_off :
  (if float_ltb float_zero total_written_off
   then float_mul (float_div float_zero total_written_off) (float_of_Z 100)
   else float_zero) = float_zero.
Proof.
  destruct total_written_off as [s|s| |s m e]; try reflexivity;
    destruct s; reflexivity.
Qed.

Lemma to_numeric_zeros parse_number n :
  fillna float_zero (to_numeric parse_number (replicate n (PyFloat float_zero)))
  = match n with
    | O => IntColumn int64 []
    | S _ => FloatColumn (replicate n float_zero)
    end.
Proof.
  destruct n as [|n]; [reflexivity|].
  unfold to_numeric. cbn [replicate map numeric_cell float_isnan float_zero whole_numbers].
  cbn [fillna map to_float float_isnan]. do 2 f_equal.
  induction n as [|n IH]; [reflexivity|]. cbn [replicate map]. now rewrite IH.
Qed.

Section Edges.

Variable parse_number : pystr -> option number.
Variable float_group_sum : list float -> float.
Variable float_sum : list float -> float.

(** X16: a named column that is not where it is expected (index 18,
    counting from 0, for "Phone Number"; index 3 for "mobile") costs one
    warning each and nothing else: the run is complete, no error is shown,
    and the warnings shown are exactly those of the misplaced columns, the
    repayments' first. *)
Theorem misplaced_columns_only_warn σ rl wl (r w : DataFrame)
    phones repaid mobile derived :
  heap σ !! rl = Some r ->
  heap σ !! wl = Some w ->
  getitem "Phone Number" r = Some phones ->
  getitem "Total Repaid:" r = Some repaid ->
  getitem "mobile" w = Some mobile ->
  getitem "Total Writtenoff Derived" w = Some derived ->
  exists σ' table,
    main parse_number float_group_sum float_sum rl wl σ = (Return tt, σ') /\
    displayed (screen σ') = displayed (screen σ) ++ [table] /\
    errors (screen σ') = errors (screen σ) /\
    warnings (screen σ') =
      warnings (screen σ)
      ++ (if decide (index "Phone Number" (columns r) = Some 18%nat) then []
          else ["'Phone Number' is not at expected column S; proceeding with the named column."%string])
      ++ (if decide (index "mobile" (columns w) = Some 3%nat) then []
          else ["'mobile' is not at expected column D; proceeding with the named column."%string]).
Proof.
  intros Hr Hw Hp Ha Hm Hd.
  destruct (main_shows parse_number float_group_sum float_sum σ rl wl r w phones repaid mobile derived
              Hr Hw Hp Ha Hm Hd) as (σ' & Hrun & _ & Hshown & Herr).
  eexists σ', _. split; [exact Hrun|]. split; [exact Hshown|].
  split; [exact Herr|].
  pose proof (main_run parse_number float_group_sum float_sum σ rl wl r w phones repaid mobile
                Hr Hw Hp Ha Hm) as Hrun'.
  cbv zeta in Hrun'. rewrite Hd, augmented_amounts in Hrun'.
  rewrite Hrun in Hrun'. injection Hrun' as ->. cbn [screen].
  rewrite !warnings_app. unfold phone_note, mobile_note.
  rewrite (position_note_warning _ _ _ r phones Hp).
  rewrite (position_note_warning _ _ _ w mobile Hm).
  cbn [warnings omap]. now rewrite ?app_nil_r.
Qed.


(** X17: with no repayment row at all, every write-off row gets the match
    count 0 and the amount 0.0; and, the sum of a column of zeros being
    zero, the total repaid and the percentage shown are 0.0. *)
Theorem no_repayments_no_matches σ rl wl (r w : DataFrame) mobile derived :
  heap σ !! rl = Some r ->
  heap σ !! wl = Some w ->
  getitem "Phone Number" r = Some [] ->
  getitem "Total Repaid:" r = Some [] ->
  getitem "mobile" w = Some mobile ->
  getitem "Total Writtenoff Derived" w = Some derived ->
  exists σ' table,
    main parse_number float_group_sum float_sum rl wl σ = (Return tt, σ') /\
    displayed (screen σ') = displayed (screen σ) ++ [table] /\
    getitem "Repayment Phone Matches" table = Some (map (fun _ => PyInt 0) mobile) /\
    getitem "amount repayed" table
      = Some (map (fun _ => PyFloat float_zero) mobile) /\
    ((forall n, float_sum (replicate n float_zero) = float_zero) ->
     metric "Total repaid write-offs" (screen σ') = Some (NFloat float_zero) /\
     metric "% of repaid write-offs" (screen σ') = Some (NFloat float_zero)).
Proof.
  intros Hr Hw Hp Ha Hm Hd.
  destruct (main_shows parse_number float_group_sum float_sum σ rl wl r w [] []
              mobile derived Hr Hw Hp Ha Hm Hd) as (σ' & Hrun & _ & Hshown & _).
  pose proof (main_run parse_number float_group_sum float_sum σ rl wl r w [] []
                mobile Hr Hw Hp Ha Hm) as Hrun'.
  cbv zeta in Hrun'. rewrite Hd, augmented_amounts in Hrun'.
  assert (Hamounts :
    map (fun v => PyFloat (to_float
           (sum_table_get
              (groupby_sum float_group_sum (map extract_last_nine_digits [])
                 (fillna float_zero (to_numeric parse_number [])))
              (PyStr (extract_last_nine_digits v)) (NFloat float_zero)))) mobile
    = map (fun _ => PyFloat float_zero) mobile).
  { apply map_ext. intros v. cbn [map zip_with to_numeric whole_numbers forallb
      fillna groupby_sum fold_left sum_table_get].
    now rewrite lookup_empty. }
  assert (Hzero : forall {A} (l : list A),
            map (fun _ => PyFloat float_zero) l
            = replicate (length l) (PyFloat float_zero)).
  { intros A l. induction l as [|x l IH]; [reflexivity|].
    cbn [map length replicate]. now rewrite IH. }
  rewrite Hamounts in Hrun'.
  eexists _, _. split; [exact Hrun|]. split; [exact Hshown|].
  split; [apply augmented_matches|].
  split; [now rewrite augmented_amounts, Hamounts|].
  intros Hzeros.
  assert (Htotal :
    to_float (series_sum float_sum
      (fillna float_zero (to_numeric parse_number
         (map (fun _ => PyFloat float_zero) mobile)))) = float_zero).
  { rewrite Hzero, to_numeric_zeros. destruct (length mobile); [reflexivity|].
    cbn [series_sum to_float]. apply Hzeros. }
  rewrite Htotal, nothing_repaid in Hrun'.
  rewrite Hrun in Hrun'. injection Hrun' as ->.
  cbn [screen]. rewrite !app_assoc.
  split; apply metric_shown; reflexivity.
Qed.

End Edges.

Lemma misplaced_columns_only_warn_witness :
  exists σ' table,
    run_main scenario_state = (Return tt, σ') /\
    displayed (screen σ') = displayed (screen scenario_state) ++ [table] /\
    errors (screen σ') = errors (screen scenario_state) /\
    warnings (screen σ') =
      warnings (screen scenario_state)
      ++ (if decide (index "Phone Number" (columns scenario_repayments) = Some 18%nat)
          then []
          else ["'Phone Number' is not at expected column S; proceeding with the named column."%string])
      ++ (if decide (index "mobile" (columns scenario_writeoffs) = Some 3%nat) then []
          else ["'mobile' is not at expected column D; proceeding with the named column."%string]).
Proof.
  apply (misplaced_columns_only_warn parse_decimal sum_in_order sum_in_order scenario_state 1%positive 2%positive
           scenario_repayments scenario_writeoffs scenario_phones scenario_repaid
           scenario_mobile scenario_derived); reflexivity.
Defined.

Lemma no_repayments_no_matches_witness :
  exists σ' table,
    run_main (loaded empty_repayments scenario_writeoffs) = (Return tt, σ') /\
    displayed (screen σ')
      = displayed (screen (loaded empty_repayments scenario_writeoffs)) ++ [table] /\
    getitem "Repayment Phone Matches" table
      = Some (map (fun _ => PyInt 0) scenario_mobile) /\
    getitem "amount repayed" table
      = Some (map (fun _ => PyFloat float_zero) scenario_mobile) /\
    metric "Total repaid write-offs" (screen σ') = Some (NFloat float_zero) /\
    metric "% of repaid write-offs" (screen σ') = Some (NFloat float_zero).
Proof.
  destruct (no_repayments_no_matches parse_decimal sum_in_order sum_in_order
              (loaded empty_repayments scenario_writeoffs) 1%positive 2%positive
              empty_repayments scenario_writeoffs scenario_mobile scenario_derived)
    as (σ' & table & Hrun & Hshown & Hmatches & Hamounts & Htotals);
    [reflexivity.. |].
  exists σ', table. split; [exact Hrun|]. split; [exact Hshown|].
  split; [exact Hmatches|]. split; [exact Hamounts|].
  apply Htotals, sum_in_order_zeros.
Defined.
